(** * thread_framework: worker state machine and thread manager

    A shallow embedding of [IThreadWorker.h], [BaseWorkers.h] and
    [ThreadManager.h].  Worker objects are records, [std::atomic] fields are
    plain fields that are read and written one access at a time, the two
    registries are finite maps, and every thread of execution is a control
    point that advances by atomic steps, so that the controlling thread and
    the worker threads can be interleaved by a schedule. *)

From stdpp Require Import gmap strings list pretty.
From Stdlib Require Import ZArith Lia.

Local Open Scope Z_scope.

(** ** Machine integers *)

(** [SIZE_MAX] of a 64-bit [size_t]; [size_t] arithmetic wraps around. *)
Definition SIZE_MAX : N := (2 ^ 64 - 1)%N.

Definition size_wrap (n : N) : N := (n mod 2 ^ 64)%N.

(** [std::atomic<int>] increments wrap around in two's complement. *)
Definition int_wrap (z : Z) : Z := (z + 2 ^ 31) mod 2 ^ 32 - 2 ^ 31.

(** ** IThreadWorker.h *)

Inductive ThreadState := STOPPED | RUNNING | PAUSED | FINISHED.

#[global] Instance ThreadState_eq_dec : EqDecision ThreadState.
Proof. solve_decision. Defined.

(** The protected members of [IThreadWorker]. *)
Record IThreadWorker := mkIThreadWorker {
  state : ThreadState;
  shouldStop : bool;
  shouldPause : bool
}.

(** Member initialisers: [state{STOPPED}], [shouldStop{false}],
    [shouldPause{false}]. *)
Definition IThreadWorker_init : IThreadWorker :=
  mkIThreadWorker STOPPED false false.

Definition setState (newState : ThreadState) (b : IThreadWorker) : IThreadWorker :=
  mkIThreadWorker newState (shouldStop b) (shouldPause b).

(** One evaluation of the loop condition of [shouldContinue], and of the
    return statement when the loop is left: either the caller sleeps for
    100 milliseconds and polls again, or the call returns [!shouldStop]. *)
Inductive Poll := Sleep100 | Answer (b : bool).

Definition shouldContinue_poll (b : IThreadWorker) : Poll :=
  if shouldPause b && negb (shouldStop b) then Sleep100
  else Answer (negb (shouldStop b)).



(** ** BaseWorkers.h *)

(** A call of a [std::function] that returns, or that throws an exception
    derived from [std::exception], whose [what()] is the message.  These are
    the calls the [catch (const std::exception&)] clauses of the code deal
    with.  A call that throws anything else is caught by none of them, and
    one that never returns keeps its thread for ever: both are left out
    here, so whatever is said below of a callback is said of callbacks that
    return or throw a [std::exception] at every call.  The argument is the
    loop index for a [LoopWorker]'s loop callback and the value of the
    worker's own counter at the call otherwise.  [None] is the empty
    function ([nullptr]). *)
Inductive Outcome := Returns | Throws (what : string).

Definition Callback := Z -> Outcome.

Definition invoke (f : option Callback) (arg : Z) : Outcome :=
  match f with
  | None => Returns
  | Some g => g arg
  end.

Record MonitorWorker := mkMonitor {
  mon_interval_ : Z;
  mon_callback_ : option Callback;
  enabled_ : bool;
  iterationCount_ : Z
}.

Record TaskWorker := mkTask {
  task_ : option Callback;
  description_ : string;
  completed_ : bool
}.

Record TimerWorker := mkTimer {
  tim_interval_ : Z;
  tim_callback_ : option Callback;
  maxTriggers_ : Z;
  triggerCount_ : Z
}.

Record LoopWorker := mkLoop {
  loopCount_ : Z;
  loopCallback_ : option Callback;
  startCallback_ : option Callback;
  endCallback_ : option Callback;
  currentLoop_ : Z
}.

Inductive Derived :=
| Monitor (m : MonitorWorker)
| Task (t : TaskWorker)
| Timer (t : TimerWorker)
| Loop (l : LoopWorker).

(** A worker object: the base-class members and the members of its class. *)
Record Worker := mkWorker {
  base : IThreadWorker;
  derived : Derived
}.

(** Constructors. *)
Definition new_MonitorWorker (interval : Z) (callback : option Callback) : Worker :=
  mkWorker IThreadWorker_init (Monitor (mkMonitor interval callback true 0)).

Definition new_TaskWorker (task : option Callback) (description : string) : Worker :=
  mkWorker IThreadWorker_init
    (Task (mkTask task
             (if decide (description = "") then "Unnamed Task" else description)
             false)).

Definition new_TimerWorker (interval : Z) (callback : option Callback)
  (maxTriggers : Z) : Worker :=
  mkWorker IThreadWorker_init (Timer (mkTimer interval callback maxTriggers 0)).

Definition new_LoopWorker (loopCount : Z) (loopCallback startCallback endCallback : option Callback)
  : Worker :=
  mkWorker IThreadWorker_init
    (Loop (mkLoop loopCount loopCallback startCallback endCallback 0)).

(** State queries. *)
Definition getState (w : Worker) : ThreadState := state (base w).
Definition isRunning (w : Worker) : bool := bool_decide (getState w = RUNNING).
Definition isPaused (w : Worker) : bool := bool_decide (getState w = PAUSED).
Definition isStopped (w : Worker) : bool := bool_decide (getState w = STOPPED).
Definition isFinished (w : Worker) : bool := bool_decide (getState w = FINISHED).

Definition getType (w : Worker) : string :=
  match derived w with
  | Monitor _ => "MonitorWorker"
  | Task _ => "TaskWorker"
  | Timer _ => "TimerWorker"
  | Loop _ => "LoopWorker"
  end.

(** The progress counter of a worker: [getIterationCount], [getTriggerCount],
    [getCurrentLoop]; a [TaskWorker] has its completion flag only. *)
Definition progress (w : Worker) : Z :=
  match derived w with
  | Monitor m => iterationCount_ m
  | Task t => if completed_ t then 1 else 0
  | Timer t => triggerCount_ t
  | Loop l => currentLoop_ l
  end.

Definition with_base (f : IThreadWorker -> IThreadWorker) (w : Worker) : Worker :=
  mkWorker (f (base w)) (derived w).

Definition with_derived (d : Derived) (w : Worker) : Worker :=
  mkWorker (base w) d.

(** Lifecycle hooks.  The defaults of [IThreadWorker] have empty bodies; the
    overrides of the four workers print, and [MonitorWorker::onStop]
    also clears [enabled_].  Console output is not modelled. *)
Definition onInitialize (w : Worker) : Worker := w.
Definition onStart (w : Worker) : Worker := w.
Definition onPause (w : Worker) : Worker := w.
Definition onResume (w : Worker) : Worker := w.
Definition onError (error : string) (w : Worker) : Worker := w.

Definition onStop (w : Worker) : Worker :=
  match derived w with
  | Monitor m =>
      with_derived
        (Monitor (mkMonitor (mon_interval_ m) (mon_callback_ m) false (iterationCount_ m))) w
  | _ => w
  end.

(** *** The bodies of [run], one atomic step at a time *)

(** Control points inside [run]. *)
Inductive RunPc :=
| Enter                 (* setState(RUNNING) *)
| MonTest               (* while (shouldContinue() && enabled_.load()) *)
| MonBody               (* iterationCount_++; callback_() or the default logic *)
| MonSleep              (* sleep_for(interval_) *)
| TaskBody              (* if (task_) try { task_(); ... } catch ... *)
| TimTest               (* while (shouldContinue()); the trigger limit *)
| TimSleep              (* sleep_for(interval_) *)
| TimRecheck            (* if (!shouldContinue()) break *)
| TimFire               (* triggerCount_++; callback_() in try/catch *)
| LoopStart             (* startCallback_() *)
| LoopTest (i : Z)      (* i <= loopCount_ && shouldContinue() *)
| LoopBody (i : Z)      (* currentLoop_.store(i); loopCallback_(i) in try/catch *)
| LoopEnd               (* endCallback_() *)
| Exit.                 (* setState(FINISHED) *)

#[global] Instance RunPc_eq_dec : EqDecision RunPc.
Proof. solve_decision. Defined.

(** What one step of [run] does: go on at another control point, return to
    the caller, or leave [run] with an exception. *)
Inductive RunResult :=
| Next (pc : RunPc) (w : Worker)
| Returned (w : Worker)
| Thrown (what : string) (w : Worker).

Definition MonitorWorker_step (pc : RunPc) (m : MonitorWorker) (w : Worker)
  : option RunResult :=
  match pc with
  | Enter => Some (Next MonTest (with_base (setState RUNNING) w))
  | MonTest =>
      match shouldContinue_poll (base w) with
      | Sleep100 => Some (Next MonTest w)
      | Answer c => Some (Next (if c && enabled_ m then MonBody else Exit) w)
      end
  | MonBody =>
      let n := int_wrap (iterationCount_ m + 1) in
      let w' := with_derived
                  (Monitor (mkMonitor (mon_interval_ m) (mon_callback_ m) (enabled_ m) n)) w in
      match invoke (mon_callback_ m) n with
      | Returns => Some (Next MonSleep w')
      | Throws e => Some (Thrown e w')
      end
  | MonSleep => Some (Next MonTest w)
  | Exit => Some (Returned (with_base (setState FINISHED) w))
  | _ => None
  end.

Definition TaskWorker_step (pc : RunPc) (t : TaskWorker) (w : Worker)
  : option RunResult :=
  match pc with
  | Enter => Some (Next TaskBody (with_base (setState RUNNING) w))
  | TaskBody =>
      match task_ t with
      | None => Some (Next Exit w)
      | Some f =>
          match f 0 with
          | Returns =>
              Some (Next Exit
                      (with_derived (Task (mkTask (task_ t) (description_ t) true)) w))
          | Throws e =>
              Some (Next Exit (onError ("Task execution failed: " +:+ e) w))
          end
      end
  | Exit => Some (Returned (with_base (setState FINISHED) w))
  | _ => None
  end.

Definition TimerWorker_step (pc : RunPc) (t : TimerWorker) (w : Worker)
  : option RunResult :=
  match pc with
  | Enter => Some (Next TimTest (with_base (setState RUNNING) w))
  | TimTest =>
      match shouldContinue_poll (base w) with
      | Sleep100 => Some (Next TimTest w)
      | Answer false => Some (Next Exit w)
      | Answer true =>
          if (0 <? maxTriggers_ t) && (maxTriggers_ t <=? triggerCount_ t)
          then Some (Next Exit w)
          else Some (Next TimSleep w)
      end
  | TimSleep => Some (Next TimRecheck w)
  | TimRecheck =>
      match shouldContinue_poll (base w) with
      | Sleep100 => Some (Next TimRecheck w)
      | Answer false => Some (Next Exit w)
      | Answer true => Some (Next TimFire w)
      end
  | TimFire =>
      let n := int_wrap (triggerCount_ t + 1) in
      let w' := with_derived
                  (Timer (mkTimer (tim_interval_ t) (tim_callback_ t) (maxTriggers_ t) n)) w in
      match invoke (tim_callback_ t) n with
      | Returns => Some (Next TimTest w')
      | Throws e => Some (Next TimTest (onError ("Timer callback failed: " +:+ e) w'))
      end
  | Exit => Some (Returned (with_base (setState FINISHED) w))
  | _ => None
  end.

(** [++i] on the [int] loop variable is written with [int_wrap]. *)
Definition LoopWorker_step (pc : RunPc) (l : LoopWorker) (w : Worker)
  : option RunResult :=
  match pc with
  | Enter => Some (Next LoopStart (with_base (setState RUNNING) w))
  | LoopStart =>
      match invoke (startCallback_ l) 0 with
      | Returns => Some (Next (LoopTest 1) w)
      | Throws e => Some (Thrown e w)
      end
  | LoopTest i =>
      if i <=? loopCount_ l then
        match shouldContinue_poll (base w) with
        | Sleep100 => Some (Next (LoopTest i) w)
        | Answer true => Some (Next (LoopBody i) w)
        | Answer false => Some (Next LoopEnd w)
        end
      else Some (Next LoopEnd w)
  | LoopBody i =>
      let w' := with_derived
                  (Loop (mkLoop (loopCount_ l) (loopCallback_ l) (startCallback_ l)
                           (endCallback_ l) i)) w in
      match invoke (loopCallback_ l) i with
      | Returns => Some (Next (LoopTest (int_wrap (i + 1))) w')
      | Throws e =>
          Some (Next (LoopTest (int_wrap (i + 1)))
                  (onError ("Loop callback failed: " +:+ e) w'))
      end
  | LoopEnd =>
      match invoke (endCallback_ l) 0 with
      | Returns => Some (Next Exit w)
      | Throws e => Some (Thrown e w)
      end
  | Exit => Some (Returned (with_base (setState FINISHED) w))
  | _ => None
  end.

(** Virtual dispatch of [run].  A control point that belongs to the [run]
    of another class has no step. *)
Definition run_step (pc : RunPc) (w : Worker) : option RunResult :=
  match derived w with
  | Monitor m => MonitorWorker_step pc m w
  | Task t => TaskWorker_step pc t w
  | Timer t => TimerWorker_step pc t w
  | Loop l => LoopWorker_step pc l w
  end.

(** The factory interface.  [createWorker] is a non-const virtual method, so
    a factory carries the number of workers it has made; [produce k] is what
    its [k]-th call returns, [None] for a null pointer.  A registered
    factory pointer is itself taken to be non-null. *)
Record IThreadWorkerFactory := mkFactory {
  factoryType : string;
  produce : nat -> option Worker;
  made : nat
}.

Definition createWorker (f : IThreadWorkerFactory) : option Worker * IThreadWorkerFactory :=
  (produce f (made f), mkFactory (factoryType f) (produce f) (S (made f))).

(** ** ThreadManager.h *)

(** A [std::thread] handle: joinable until it has been joined. *)
Inductive Handle := Joinable | Joined.

(** An entry of the thread registry.  An entry is in the registry only with
    its worker stored, so [worker] is not nullable here; [thread] is the
    [unique_ptr] the code tests before joining. *)
Record ThreadInfo := mkThreadInfo {
  thread : option Handle;
  worker : Worker;
  running : bool;
  name : string;
  startTime : Z
}.

Definition with_worker (f : Worker -> Worker) (info : ThreadInfo) : ThreadInfo :=
  mkThreadInfo (thread info) (f (worker info)) (running info) (name info) (startTime info).

Definition with_running (r : bool) (info : ThreadInfo) : ThreadInfo :=
  mkThreadInfo (thread info) (worker info) r (name info) (startTime info).

Definition with_thread (h : option Handle) (info : ThreadInfo) : ThreadInfo :=
  mkThreadInfo h (worker info) (running info) (name info) (startTime info).

Record ThreadManager := mkThreadManager {
  factories_ : gmap string IThreadWorkerFactory;
  threads_ : gmap N ThreadInfo;
  maxThreads_ : N;
  nextId_ : N
}.

(** [explicit ThreadManager(size_t maxThreads = 0)], with [nextId_{1}]. *)
Definition new_ThreadManager (maxThreads : N) : ThreadManager :=
  mkThreadManager ∅ ∅ maxThreads 1.

Definition with_factories (fs : gmap string IThreadWorkerFactory) (m : ThreadManager)
  : ThreadManager :=
  mkThreadManager fs (threads_ m) (maxThreads_ m) (nextId_ m).

Definition with_threads (ts : gmap N ThreadInfo) (m : ThreadManager) : ThreadManager :=
  mkThreadManager (factories_ m) ts (maxThreads_ m) (nextId_ m).

Definition with_nextId (n : N) (m : ThreadManager) : ThreadManager :=
  mkThreadManager (factories_ m) (threads_ m) (maxThreads_ m) n.

Definition addFactory (factory : IThreadWorkerFactory) (type : string) (m : ThreadManager)
  : bool * ThreadManager :=
  match factories_ m !! type with
  | Some _ => (false, m)
  | None => (true, with_factories (<[type := factory]> (factories_ m)) m)
  end.

(** [maxThreads_ > 0 && threads_.size() >= maxThreads_] *)
Definition at_ceiling (m : ThreadManager) : bool :=
  (0 <? maxThreads_ m)%N && (maxThreads_ m <=? N.of_nat (size (threads_ m)))%N.

Definition setMaxThreads (maxThreads : N) (m : ThreadManager) : ThreadManager :=
  mkThreadManager (factories_ m) (threads_ m) maxThreads (nextId_ m).

Definition getMaxThreads (m : ThreadManager) : N := maxThreads_ m.

Definition getTotalThreadCount (m : ThreadManager) : N := N.of_nat (size (threads_ m)).

Definition getActiveThreadCount (m : ThreadManager) : N :=
  N.of_nat (size (filter (fun kv => isRunning (worker kv.2) || isPaused (worker kv.2) = true)
                    (threads_ m))).

Definition pauseThread (threadId : N) (m : ThreadManager) : bool * ThreadManager :=
  match threads_ m !! threadId with
  | None => (false, m)
  | Some info =>
      if isRunning (worker info)
      then (true, with_threads (<[threadId := with_worker onPause info]> (threads_ m)) m)
      else (false, m)
  end.

Definition resumeThread (threadId : N) (m : ThreadManager) : bool * ThreadManager :=
  match threads_ m !! threadId with
  | None => (false, m)
  | Some info =>
      if isPaused (worker info)
      then (true, with_threads (<[threadId := with_worker onResume info]> (threads_ m)) m)
      else (false, m)
  end.

Definition stopAll (m : ThreadManager) : ThreadManager :=
  with_threads (with_worker onStop <$> threads_ m) m.

Definition allThreadsFinished (m : ThreadManager) : bool :=
  bool_decide (map_Forall (fun _ info => running info = false) (threads_ m)).

Definition stateStr (st : ThreadState) : string :=
  match st with
  | RUNNING => "RUNNING"
  | STOPPED => "STOPPED"
  | PAUSED => "PAUSED"
  | FINISHED => "FINISHED"
  end.

Definition getThreadStatus (threadId : N) (m : ThreadManager) : string :=
  match threads_ m !! threadId with
  | None => ""
  | Some info =>
      name info +:+ " [" +:+ getType (worker info) +:+ "]: " +:+ stateStr (getState (worker info))
  end.

(** *** Threads of execution *)

(** Control points of the lambda that [startWorker] hands to [std::thread]. *)
Inductive ThreadPc :=
| TFind                     (* threads_.find(threadId) *)
| TSetRunning               (* info.running.store(true) *)
| TOnStart                  (* info.worker->onStart() *)
| TRun (pc : RunPc)         (* inside info.worker->run() *)
| TCatch (what : string)    (* catch: info.worker->onError(e.what()) *)
| TClearRunning             (* info.running.store(false) *)
| TNotify                   (* condition_.notify_all() *)
| TExited.

#[global] Instance ThreadPc_eq_dec : EqDecision ThreadPc.
Proof. solve_decision. Defined.

(** Where the controlling thread is: between calls, inside [startWorker]
    after the thread has been created and before the entry is stored, or
    inside [stopThread] blocked in [join]. *)
Inductive Caller :=
| Idle
| InStartWorker (threadId : N) (name : string) (w : Worker) (startTime : Z)
| InJoin (threadId : N).

Record System := mkSystem {
  mgr : ThreadManager;
  os_threads : gmap N ThreadPc;
  caller : Caller;
  now : Z
}.

Definition new_System (maxThreads : N) : System :=
  mkSystem (new_ThreadManager maxThreads) ∅ Idle 0.

Definition with_mgr (m : ThreadManager) (s : System) : System :=
  mkSystem m (os_threads s) (caller s) (now s).

Definition with_caller (c : Caller) (s : System) : System :=
  mkSystem (mgr s) (os_threads s) c (now s).

(** The steps of the thread body once [find] has found its entry. *)
Definition thread_body_step (pc : ThreadPc) (info : ThreadInfo)
  : option (ThreadPc * ThreadInfo) :=
  match pc with
  | TFind => Some (TSetRunning, info)
  | TSetRunning => Some (TOnStart, with_running true info)
  | TOnStart => Some (TRun Enter, with_worker onStart info)
  | TRun pc =>
      match run_step pc (worker info) with
      | Some (Next pc' w) => Some (TRun pc', with_worker (fun _ => w) info)
      | Some (Returned w) => Some (TClearRunning, with_worker (fun _ => w) info)
      | Some (Thrown e w) => Some (TCatch e, with_worker (fun _ => w) info)
      | None => None
      end
  | TCatch e => Some (TClearRunning, with_worker (onError e) info)
  | TClearRunning => Some (TNotify, with_running false info)
  | TNotify => Some (TExited, info)
  | TExited => None
  end.

(** One step of the thread created for [threadId].  When [find] does not
    find the id, the body of the [if] is skipped and the thread exits. *)
Definition thread_step (threadId : N) (s : System) : option System :=
  match os_threads s !! threadId with
  | None => None
  | Some pc =>
      match threads_ (mgr s) !! threadId with
      | None =>
          match pc with
          | TFind => Some (mkSystem (mgr s) (<[threadId := TExited]> (os_threads s))
                             (caller s) (now s))
          | _ => None
          end
      | Some info =>
          match thread_body_step pc info with
          | None => None
          | Some (pc', info') =>
              Some (mkSystem (with_threads (<[threadId := info']> (threads_ (mgr s))) (mgr s))
                      (<[threadId := pc']> (os_threads s)) (caller s) (now s))
          end
      end
  end.

(** [startWorker], lines 326 to 354: the id is taken, [onInitialize] runs
    and the thread is created; the controlling thread is then still inside
    [startWorker]. *)
Definition startWorker_spawn (w : Worker) (name : string) (s : System) : N * System :=
  let threadId := nextId_ (mgr s) in
  (threadId,
   mkSystem (with_nextId (size_wrap (threadId + 1)) (mgr s))
     (<[threadId := TFind]> (os_threads s))
     (InStartWorker threadId name (onInitialize w) (now s))
     (now s)).

(** [startWorker], lines 356 to 363: [threads_[threadId]] makes a
    [ThreadInfo("")] when the id has no entry, then the worker, the start
    time and the thread handle are assigned. *)
Definition startWorker_store (s : System) : System :=
  match caller s with
  | InStartWorker threadId _ w t0 =>
      let slot :=
        match threads_ (mgr s) !! threadId with
        | Some old => (running old, name old)
        | None => (false, "")
        end in
      let threadInfo := mkThreadInfo (Some Joinable) w slot.1 slot.2 t0 in
      mkSystem (with_threads (<[threadId := threadInfo]> (threads_ (mgr s))) (mgr s))
        (os_threads s) Idle (now s)
  | _ => s
  end.

(** [std::to_string(nextId_++)] appended to a prefix. *)
Definition auto_name (prefix : string) (s : System) : string * System :=
  (prefix +:+ "_" +:+ pretty (nextId_ (mgr s)),
   with_mgr (with_nextId (size_wrap (nextId_ (mgr s) + 1)) (mgr s)) s).

Definition name_or_auto (prefix name : string) (s : System) : string * System :=
  if decide (name = "") then auto_name prefix s else (name, s).

(** [startWorker] as the controlling thread runs it when no other thread
    gets a turn before it returns. *)
Definition startWorker (w : Worker) (name : string) (s : System) : N * System :=
  let (threadId, s') := startWorker_spawn w name s in (threadId, startWorker_store s').

(** [createThread] and [createThreadWithWorker]; [start] is [startWorker],
    or [startWorker_spawn] when the call is followed step by step. *)
Definition createThread_via (start : Worker -> string -> System -> N * System)
  (type name : string) (s : System) : N * System :=
  match factories_ (mgr s) !! type with
  | None => (SIZE_MAX, s)
  | Some factory =>
      if at_ceiling (mgr s) then (SIZE_MAX, s)
      else
        let (ow, factory') := createWorker factory in
        let s1 := with_mgr (with_factories (<[type := factory']> (factories_ (mgr s))) (mgr s)) s in
        match ow with
        | None => (SIZE_MAX, s1)
        | Some w =>
            let (n, s2) := name_or_auto type name s1 in
            start w n s2
        end
  end.

(** In [createThreadWithWorker] the name is built from [worker->getType()]
    in the same argument list that moves [worker]; the name is taken here
    from the worker that is handed over. *)
Definition createThreadWithWorker_via (start : Worker -> string -> System -> N * System)
  (ow : option Worker) (name : string) (s : System) : N * System :=
  match ow with
  | None => (SIZE_MAX, s)
  | Some w =>
      if at_ceiling (mgr s) then (SIZE_MAX, s)
      else
        let (n, s1) := name_or_auto (getType w) name s in
        start w n s1
  end.

Definition createThread := createThread_via startWorker.
Definition createThreadWithWorker := createThreadWithWorker_via startWorker.
Definition createThread_spawn := createThread_via startWorker_spawn.
Definition createThreadWithWorker_spawn := createThreadWithWorker_via startWorker_spawn.

(** [stopThread] up to [join]: the result is known at once when the id is
    unknown or there is nothing to join. *)
Definition stopThread_request (threadId : N) (s : System) : option bool * System :=
  match threads_ (mgr s) !! threadId with
  | None => (Some false, s)
  | Some info =>
      let info' := with_worker onStop info in
      let s' := with_mgr (with_threads (<[threadId := info']> (threads_ (mgr s))) (mgr s)) s in
      match thread info with
      | Some Joinable => (None, with_caller (InJoin threadId) s')
      | _ => (Some true, s')
      end
  end.

(** [join] returns once the thread has exited. *)
Definition stopThread_join (s : System) : option (bool * System) :=
  match caller s with
  | InJoin threadId =>
      match os_threads s !! threadId with
      | Some TExited =>
          Some (true,
                mkSystem
                  (with_threads (alter (with_thread (Some Joined)) threadId (threads_ (mgr s)))
                     (mgr s))
                  (os_threads s) Idle (now s))
      | _ => None
      end
  | _ => None
  end.

(** [cleanupFinishedThreadsUnsafe]: the entries erased are those with
    [running] false and a finished worker; each is joined first, which
    blocks until its thread has exited. *)
Definition removable (info : ThreadInfo) : bool :=
  negb (running info) && isFinished (worker info).

Definition join_ready (s : System) (threadId : N) (info : ThreadInfo) : bool :=
  match thread info with
  | Some Joinable => bool_decide (os_threads s !! threadId = Some TExited)
  | _ => true
  end.

Definition cleanupFinishedThreadsUnsafe (s : System) : option System :=
  if bool_decide (map_Forall (fun id info => removable info = true -> join_ready s id info = true)
                    (threads_ (mgr s)))
  then Some (with_mgr (with_threads (filter (fun kv => removable kv.2 = false) (threads_ (mgr s)))
                         (mgr s)) s)
  else None.

(** [waitForAll]: [None] while the caller is blocked. *)
Definition waitForAll (s : System) : option System :=
  if allThreadsFinished (mgr s) then cleanupFinishedThreadsUnsafe s else None.

(** *** Schedules *)

Inductive Label :=
| CallAddFactory (factory : IThreadWorkerFactory) (type : string)
| CallCreateThread (type name : string)
| CallCreateThreadWithWorker (w : option Worker) (name : string)
| CallStopThread (threadId : N)
| CallPauseThread (threadId : N)
| CallResumeThread (threadId : N)
| CallStopAll
| CallWaitForAll
| CallCleanupFinishedThreads
| CallSetMaxThreads (maxThreads : N)
| CallerStep
| ThreadStep (threadId : N)
| Tick (dt : Z).

Definition call_step (l : Label) (s : System) : option System :=
  match l with
  | CallAddFactory f type => Some (with_mgr (addFactory f type (mgr s)).2 s)
  | CallCreateThread type name => Some (createThread_spawn type name s).2
  | CallCreateThreadWithWorker w name => Some (createThreadWithWorker_spawn w name s).2
  | CallStopThread id => Some (stopThread_request id s).2
  | CallPauseThread id => Some (with_mgr (pauseThread id (mgr s)).2 s)
  | CallResumeThread id => Some (with_mgr (resumeThread id (mgr s)).2 s)
  | CallStopAll => Some (with_mgr (stopAll (mgr s)) s)
  | CallWaitForAll => waitForAll s
  | CallCleanupFinishedThreads => cleanupFinishedThreadsUnsafe s
  | CallSetMaxThreads n => Some (with_mgr (setMaxThreads n (mgr s)) s)
  | CallerStep | ThreadStep _ | Tick _ => None
  end.

(** One step of the system: a worker thread advances, the clock advances, or
    the controlling thread starts a call (when it is between calls) or goes
    on with the call it is in.  [None]: the step is not enabled. *)
Definition sys_step (l : Label) (s : System) : option System :=
  match l with
  | ThreadStep id => thread_step id s
  | Tick dt => if 0 <=? dt then Some (mkSystem (mgr s) (os_threads s) (caller s) (now s + dt)) else None
  | CallerStep =>
      match caller s with
      | Idle => None
      | InStartWorker _ _ _ _ => Some (startWorker_store s)
      | InJoin _ => snd <$> stopThread_join s
      end
  | _ =>
      match caller s with
      | Idle => call_step l s
      | _ => None
      end
  end.

Fixpoint exec (sched : list Label) (s : System) : option System :=
  match sched with
  | [] => Some s
  | l :: sched' =>
      match sys_step l s with
      | Some s' => exec sched' s'
      | None => None
      end
  end.

(** The state of the worker registered under an id, as a reader sees it. *)
Definition worker_state (threadId : N) (s : System) : option ThreadState :=
  (fun info => getState (worker info)) <$> threads_ (mgr s) !! threadId.

(** *** The life of one registry entry *)

(** What can happen to a registered worker: its hosting thread takes a step,
    or the controlling thread reaches it through [stopThread] or [stopAll]
    ([onStop]), [pauseThread] ([onPause] when [isRunning]) or [resumeThread]
    ([onResume] when [isPaused]). *)
Inductive WorkerEvent := HostStep | ControlStop | ControlPause | ControlResume.

Definition entry_step (ev : WorkerEvent) (c : ThreadPc * ThreadInfo) : ThreadPc * ThreadInfo :=
  match ev with
  | HostStep => default c (thread_body_step c.1 c.2)
  | ControlStop => (c.1, with_worker onStop c.2)
  | ControlPause => if isRunning (worker c.2) then (c.1, with_worker onPause c.2) else c
  | ControlResume => if isPaused (worker c.2) then (c.1, with_worker onResume c.2) else c
  end.

Definition entry_exec (evs : list WorkerEvent) (c : ThreadPc * ThreadInfo)
  : ThreadPc * ThreadInfo :=
  foldl (fun c ev => entry_step ev c) c evs.

(** What a reader that calls [getState] after every event sees. *)
Fixpoint observed (evs : list WorkerEvent) (c : ThreadPc * ThreadInfo) : list ThreadState :=
  getState (worker c.2) ::
  match evs with
  | [] => []
  | ev :: evs' => observed evs' (entry_step ev c)
  end.

(** Readings that follow [Stopped, Running, (Paused, Running)*, Finished]:
    some readings of [STOPPED], then readings of [RUNNING] and [PAUSED],
    then readings of [FINISHED]. *)
Inductive Phase := PStopped | PActive | PFinished.

Definition phase_of (st : ThreadState) : Phase :=
  match st with
  | STOPPED => PStopped
  | RUNNING | PAUSED => PActive
  | FINISHED => PFinished
  end.

Definition phase_le (p q : Phase) : bool :=
  match p, q with
  | PStopped, _ => true
  | PActive, (PActive | PFinished) => true
  | PFinished, PFinished => true
  | _, _ => false
  end.

Fixpoint follows (ph : Phase) (l : list ThreadState) : bool :=
  match l with
  | [] => true
  | st :: l' => phase_le ph (phase_of st) && follows (phase_of st) l'
  end.

Definition lifecycle_ok (l : list ThreadState) : bool := follows PStopped l.

(** *** Invariants and views *)

(** The caller is held: a pause is requested and no stop is. *)
Definition held (b : IThreadWorker) : Prop :=
  shouldPause b = true /\ shouldStop b = false.

(** Where the hosting thread is tells the state of the worker: [STOPPED]
    until [run] is entered, [RUNNING] inside [run] and in the handler. *)
Definition entry_inv (c : ThreadPc * ThreadInfo) : Prop :=
  match c.1 with
  | TFind | TSetRunning | TOnStart | TRun Enter => getState (worker c.2) = STOPPED
  | TRun _ | TCatch _ => getState (worker c.2) = RUNNING
  | TClearRunning | TNotify | TExited =>
      getState (worker c.2) = RUNNING \/ getState (worker c.2) = FINISHED
  end.

(** What the properties below look at in a system: where the thread of an id is,
    the [running] flag and the worker state of its entry, and where the
    controlling thread is. *)
Definition view (threadId : N) (s : System)
  : option ThreadPc * option bool * option ThreadState * Caller :=
  (os_threads s !! threadId,
   running <$> threads_ (mgr s) !! threadId,
   worker_state threadId s,
   caller s).

(** After [k] steps of the system the id counter is at most [1 + 2 * k],
    every id in use is below it, and so is the id of a [startWorker] in
    progress. *)
Definition ids_inv (k : N) (s : System) : Prop :=
  (nextId_ (mgr s) <= 1 + 2 * k)%N /\
  (forall id, is_Some (threads_ (mgr s) !! id) -> (id < nextId_ (mgr s))%N) /\
  match caller s with
  | InStartWorker id _ _ _ => (id < nextId_ (mgr s))%N
  | _ => True
  end.

(** The control points at which [run] evaluates [shouldContinue]; in a
    [LoopWorker] the call is reached only while [i <= loopCount_]. *)
Definition polling_point (pc : RunPc) (w : Worker) : bool :=
  match derived w, pc with
  | Monitor _, MonTest => true
  | Timer _, (TimTest | TimRecheck) => true
  | Loop l, LoopTest i => i <=? loopCount_ l
  | _, _ => false
  end.

(** *** Sample inputs *)

(** A factory whose workers are tasks with an empty function. *)
Definition sample_factory (tag : string) : IThreadWorkerFactory :=
  mkFactory tag (fun _ => Some (new_TaskWorker None tag)) 0.

(** A manager with a ceiling of two and one factory, under "task". *)
Definition sample_system : System :=
  with_mgr (addFactory (sample_factory "task") "task" (new_ThreadManager 2)).2 (new_System 2).


(** A [LoopWorker] in its second iteration of five. *)
Definition running_loop : Worker :=
  mkWorker (mkIThreadWorker RUNNING false false)
    (Loop (mkLoop 5 (Some (fun _ => Returns)) None None 2)).

Definition running_loop_info : ThreadInfo :=
  mkThreadInfo (Some Joinable) running_loop true "" 0.

Definition running_loop_mgr : ThreadManager :=
  mkThreadManager ∅ {[ 1%N := running_loop_info ]} 0 2.

(** A monitor whose callback throws. *)
Definition failing_monitor : Worker :=
  new_MonitorWorker 1000 (Some (fun _ => Throws "boom")).

Definition failing_monitor_start : list Label :=
  [CallCreateThreadWithWorker (Some failing_monitor) "mon"; CallerStep].

(** *** [run] as a whole *)

(** How a call of [run] ends: it returns, or an exception leaves it. *)
Inductive RunEnd := Normal (w : Worker) | Escaped (what : string) (w : Worker).

(** [run] from a control point on, at most [fuel] steps; [None] when it has
    not ended by then. *)
Fixpoint run_from (fuel : nat) (pc : RunPc) (w : Worker) : option RunEnd :=
  match fuel with
  | O => None
  | S fuel' =>
      match run_step pc w with
      | Some (Next pc' w') => run_from fuel' pc' w'
      | Some (Returned w') => Some (Normal w')
      | Some (Thrown e w') => Some (Escaped e w')
      | None => None
      end
  end.

Definition run (fuel : nat) (w : Worker) : option RunEnd := run_from fuel Enter w.

(** No request is outstanding. *)
Definition no_request (b : IThreadWorker) : Prop :=
  shouldStop b = false /\ shouldPause b = false.

Definition int_range (z : Z) : Prop := - 2 ^ 31 <= z < 2 ^ 31.

(** An enabled monitor inside its loop, with no request outstanding and a
    callback that never throws. *)
Definition monitor_inv (pc : RunPc) (w : Worker) : Prop :=
  (pc = Enter \/ pc = MonTest \/ pc = MonBody \/ pc = MonSleep) /\
  no_request (base w) /\
  exists m, derived w = Monitor m /\ enabled_ m = true /\
            forall z, invoke (mon_callback_ m) z = Returns.

(** The control points of an unbounded timer's thread: before [run] and
    inside its loop. *)
Definition timer_loop_pc (pc : ThreadPc) : Prop :=
  match pc with
  | TFind | TSetRunning | TOnStart => True
  | TRun (Enter | TimTest | TimSleep | TimRecheck | TimFire) => True
  | _ => False
  end.

Definition unbounded_timer (w : Worker) : Prop :=
  exists t, derived w = Timer t /\ maxTriggers_ t <= 0.

(** The control points at which the entry's [running] flag is set. *)
Definition running_pc (pc : ThreadPc) : bool :=
  match pc with
  | TOnStart | TRun _ | TCatch _ | TClearRunning => true
  | _ => false
  end.

(** The system with the entry and the thread of an id replaced. *)
Definition set_entry (threadId : N) (pc : ThreadPc) (info : ThreadInfo) (s : System) : System :=
  mkSystem (with_threads (<[threadId := info]> (threads_ (mgr s))) (mgr s))
    (<[threadId := pc]> (os_threads s)) (caller s) (now s).



(** *** More sample inputs *)

(** A manager with a ceiling of one and one thread registered. *)
Definition full_system : System :=
  (createThreadWithWorker (Some (new_TaskWorker None "first")) "first" (new_System 1)).2.



(** A monitor in the sleep of its seventh iteration. *)
Definition sleeping_monitor_info : ThreadInfo :=
  mkThreadInfo (Some Joinable)
    (mkWorker (mkIThreadWorker RUNNING false false) (Monitor (mkMonitor 1000 None true 7)))
    true "" 0.

Definition sleeping_monitor_system : System :=
  mkSystem (mkThreadManager ∅ {[ 1%N := sleeping_monitor_info ]} 0 2)
    {[ 1%N := TRun MonSleep ]} Idle 0.

(** A factory that makes one task and then returns null. *)
Definition one_shot_factory : IThreadWorkerFactory :=
  mkFactory "once"
    (fun k => match k with O => Some (new_TaskWorker None "once") | S _ => None end) 0.

Definition one_shot_system : System :=
  with_mgr (addFactory one_shot_factory "once" (new_ThreadManager 0)).2 (new_System 0).

(** A loop worker and a timer worker with no request outstanding. *)
Definition loop_in (n : Z) (cb sc ec : option Callback) (st : ThreadState) (c : Z) : Worker :=
  mkWorker (mkIThreadWorker st false false) (Loop (mkLoop n cb sc ec c)).

Definition timer_in (iv m : Z) (cb : option Callback) (st : ThreadState) (c : Z) : Worker :=
  mkWorker (mkIThreadWorker st false false) (Timer (mkTimer iv cb m c)).

(** The id that a successful creation returns: an automatic name takes a
    value of the counter for itself. *)
Definition created_id (name : string) (s : System) : N :=
  if decide (name = "") then (nextId_ (mgr s) + 1)%N else nextId_ (mgr s).

(** A task that has not started, registered under id 1 with its thread
    created. *)
Definition fresh_task_system : System :=
  (createThreadWithWorker (Some (new_TaskWorker (Some (fun _ => Throws "bad")) "job")) "job"
     (new_System 0)).2.

(** A schedule that registers a factory, creates three threads, two of them
    with automatic names, and lets the first thread run. *)
Definition busy_schedule : list Label :=
  [CallAddFactory (sample_factory "task") "task";
   CallCreateThread "task" ""; CallerStep;
   CallCreateThreadWithWorker (Some (new_LoopWorker 2 None None None)) ""; CallerStep;
   CallCreateThread "task" "named"; CallerStep]
  ++ replicate 8 (ThreadStep 2) ++ [CallWaitForAll].

(** * Properties *)

(** ** The workers at work *)

(** A loop of five iterations, from creation to the exit of its thread. *)
Example loop_five :
  (fun s => (view 1 s, progress <$> (worker <$> threads_ (mgr s) !! 1%N)))
    <$> exec ([CallCreateThreadWithWorker (Some (new_LoopWorker 5 (Some (fun _ => Returns)) None None)) "loop";
               CallerStep] ++ replicate 20 (ThreadStep 1)) (new_System 0)
  = Some ((Some TExited, Some false, Some FINISHED, Idle), Some 5).
Proof. vm_compute. reflexivity. Qed.

(** A timer with a limit of three triggers stops by itself. *)
Example timer_three :
  (fun s => (view 1 s, progress <$> (worker <$> threads_ (mgr s) !! 1%N)))
    <$> exec ([CallCreateThreadWithWorker (Some (new_TimerWorker 800 (Some (fun _ => Returns)) 3)) "timer";
               CallerStep] ++ replicate 20 (ThreadStep 1)) (new_System 0)
  = Some ((Some TExited, Some false, Some FINISHED, Idle), Some 3).
Proof. vm_compute. reflexivity. Qed.


(** ** Records and hooks *)

Lemma with_worker_id (info : ThreadInfo) : with_worker (fun w => w) info = info.
Proof. by destruct info. Qed.

Lemma onStop_base (w : Worker) : base (onStop w) = base w.
Proof. by destruct w as [b []]. Qed.

Lemma onStop_progress (w : Worker) : progress (onStop w) = progress w.
Proof. by destruct w as [b []]. Qed.

Lemma size_wrap_small (n : N) : (n < 2 ^ 64)%N -> size_wrap n = n.
Proof. intros H. unfold size_wrap. by apply N.mod_small. Qed.

(** ** The factory registry *)

Section factories.
Variables (m : ThreadManager) (type : string).

Lemma addFactory_fresh (f : IThreadWorkerFactory) :
  factories_ m !! type = None ->
  addFactory f type m = (true, with_factories (<[type := f]> (factories_ m)) m).
Proof. intros H. unfold addFactory. by rewrite H. Qed.

Lemma addFactory_taken (f g : IThreadWorkerFactory) :
  factories_ m !! type = Some g -> addFactory f type m = (false, m).
Proof. intros H. unfold addFactory. by rewrite H. Qed.

End factories.

(** C7.  The first [addFactory] under a name that is not registered returns
    [true] and maps the name to its factory, touching nothing else; a second
    [addFactory] under the same name returns [false] and leaves the manager
    as it was, so the first factory stays mapped to the name. *)
Theorem addFactory_first_wins (m : ThreadManager) (type : string)
  (f1 f2 : IThreadWorkerFactory) :
  factories_ m !! type = None ->
  exists m1,
    addFactory f1 type m = (true, m1) /\
    factories_ m1 !! type = Some f1 /\
    (forall other, other <> type -> factories_ m1 !! other = factories_ m !! other) /\
    threads_ m1 = threads_ m /\ nextId_ m1 = nextId_ m /\ maxThreads_ m1 = maxThreads_ m /\
    addFactory f2 type m1 = (false, m1).
Proof.
  intros Hfree.
  exists (with_factories (<[type := f1]> (factories_ m)) m).
  split; first by apply addFactory_fresh.
  split; first by (simpl; apply lookup_insert_eq).
  split; first by (intros other Hne; simpl; apply lookup_insert_ne).
  repeat (split; first done).
  apply addFactory_taken with (g := f1). simpl. apply lookup_insert_eq.
Qed.

Lemma addFactory_first_wins_witness :
  exists m1,
    addFactory (sample_factory "a") "task" (new_ThreadManager 0) = (true, m1) /\
    factories_ m1 !! "task" = Some (sample_factory "a") /\
    (forall other, other <> "task" ->
       factories_ m1 !! other = factories_ (new_ThreadManager 0) !! other) /\
    threads_ m1 = threads_ (new_ThreadManager 0) /\
    nextId_ m1 = nextId_ (new_ThreadManager 0) /\
    maxThreads_ m1 = maxThreads_ (new_ThreadManager 0) /\
    addFactory (sample_factory "b") "task" m1 = (false, m1).
Proof.
  apply (addFactory_first_wins (new_ThreadManager 0) "task"
           (sample_factory "a") (sample_factory "b")).
  reflexivity.
Defined.

(** ** Creating threads *)

(** C10.  [createThreadWithWorker] with a null worker returns [SIZE_MAX] and
    changes nothing: not the thread registry, the factory registry or the
    id counter, and no thread is created. *)
Theorem createThreadWithWorker_null (name : string) (s : System) :
  createThreadWithWorker None name s = (SIZE_MAX, s).
Proof. reflexivity. Qed.

Lemma SIZE_MAX_val : SIZE_MAX = 18446744073709551615%N.
Proof. reflexivity. Qed.

Lemma at_ceiling_spec (m : ThreadManager) :
  at_ceiling m = true <->
  (0 < maxThreads_ m)%N /\ (maxThreads_ m <= N.of_nat (size (threads_ m)))%N.
Proof.
  unfold at_ceiling. rewrite andb_true_iff, N.ltb_lt, N.leb_le. tauto.
Qed.

(** What [startWorker] does to the registry when the id counter has not
    been exhausted and the ids in use are below it. *)
Lemma startWorker_fresh (w : Worker) (name : string) (s : System) :
  (nextId_ (mgr s) < SIZE_MAX)%N ->
  (forall id, is_Some (threads_ (mgr s) !! id) -> (id < nextId_ (mgr s))%N) ->
  let r := startWorker w name s in
  r.1 = nextId_ (mgr s) /\ r.1 <> SIZE_MAX /\
  threads_ (mgr s) !! r.1 = None /\
  threads_ (mgr r.2) = <[r.1 := mkThreadInfo (Some Joinable) w false "" (now s)]> (threads_ (mgr s)) /\
  nextId_ (mgr r.2) = (nextId_ (mgr s) + 1)%N /\
  factories_ (mgr r.2) = factories_ (mgr s).
Proof.
  intros Hlt Hids. simpl.
  assert (Hnone : threads_ (mgr s) !! nextId_ (mgr s) = None).
  { destruct (threads_ (mgr s) !! nextId_ (mgr s)) eqn:E; last done.
    specialize (Hids (nextId_ (mgr s)) (ex_intro _ _ E)). lia. }
  split; first done.
  split; first lia.
  split; first done.
  rewrite Hnone. simpl.
  split; first done.
  split; last done.
  apply size_wrap_small. rewrite SIZE_MAX_val in Hlt. lia.
Qed.

Lemma name_or_auto_registry (prefix name : string) (s : System) :
  (nextId_ (mgr s) + 1 < SIZE_MAX)%N ->
  let s' := (name_or_auto prefix name s).2 in
  threads_ (mgr s') = threads_ (mgr s) /\
  factories_ (mgr s') = factories_ (mgr s) /\
  now s' = now s /\
  (nextId_ (mgr s) <= nextId_ (mgr s') < SIZE_MAX)%N.
Proof.
  intros Hlt. unfold name_or_auto.
  destruct (decide (name = "")); simpl.
  - repeat (split; first done).
    rewrite SIZE_MAX_val in *. rewrite size_wrap_small; lia.
  - repeat (split; first done). lia.
Qed.

(** C8.  While the id counter is not exhausted, [createThread] returns
    [SIZE_MAX] exactly when the type has no factory, or the nonzero ceiling
    is reached, or the factory returns no worker; then the thread registry
    is unchanged.  Otherwise it returns an id that was not in use, other
    than [SIZE_MAX], and the registry has one more entry, under that id. *)
Theorem createThread_sentinel (type name : string) (s : System) :
  (nextId_ (mgr s) + 1 < SIZE_MAX)%N ->
  (forall id, is_Some (threads_ (mgr s) !! id) -> (id < nextId_ (mgr s))%N) ->
  let r := createThread type name s in
  (r.1 = SIZE_MAX <->
     factories_ (mgr s) !! type = None \/
     ((0 < maxThreads_ (mgr s))%N /\
      (maxThreads_ (mgr s) <= N.of_nat (size (threads_ (mgr s))))%N) \/
     (exists f, factories_ (mgr s) !! type = Some f /\ (createWorker f).1 = None)) /\
  (r.1 = SIZE_MAX ->
     threads_ (mgr r.2) = threads_ (mgr s) /\
     getTotalThreadCount (mgr r.2) = getTotalThreadCount (mgr s)) /\
  (r.1 <> SIZE_MAX ->
     threads_ (mgr s) !! r.1 = None /\
     is_Some (threads_ (mgr r.2) !! r.1) /\
     getTotalThreadCount (mgr r.2) = (getTotalThreadCount (mgr s) + 1)%N).
Proof.
  intros Hlt Hids. unfold createThread, createThread_via.
  destruct (factories_ (mgr s) !! type) as [f|] eqn:Hf.
  2:{ simpl. split; [tauto | split; [done | congruence]]. }
  destruct (at_ceiling (mgr s)) eqn:Hc.
  { apply at_ceiling_spec in Hc. simpl. split; [tauto | split; [done | congruence]]. }
  assert (Hnc : ~ ((0 < maxThreads_ (mgr s))%N /\
                   (maxThreads_ (mgr s) <= N.of_nat (size (threads_ (mgr s))))%N)).
  { rewrite <- at_ceiling_spec. congruence. }
  simpl. destruct (produce f (made f)) as [w|] eqn:Hw.
  2:{ simpl. split; [|split; [done | congruence]].
      split; [|done]. intros _. right; right. exists f. by rewrite Hw. }
  set (s1 := with_mgr _ s).
  assert (Hlt1 : (nextId_ (mgr s1) + 1 < SIZE_MAX)%N) by done.
  destruct (name_or_auto_registry type name s1 Hlt1) as (Ht & _ & _ & Hn).
  destruct (name_or_auto type name s1) as [n s2] eqn:Hna. simpl in Ht, Hn.
  assert (Hids2 : forall id, is_Some (threads_ (mgr s2) !! id) -> (id < nextId_ (mgr s2))%N).
  { intros id Hid. rewrite Ht in Hid. specialize (Hids id Hid). simpl in Hn. lia. }
  destruct (startWorker_fresh w n s2 (proj2 Hn) Hids2) as (Hid & Hne & Hnone & Hthr & _).
  destruct (startWorker w n s2) as [id s3]. simpl in *.
  split.
  - split; [done|]. intros [H | [H | (g & Hg & Hnull)]]; [done | tauto |].
    assert (g = f) by congruence. subst g. simpl in Hnull. congruence.
  - split; [done|]. intros _.
    rewrite Ht in Hnone. split; [done|].
    rewrite Hthr. split; [rewrite lookup_insert_eq; eauto|].
    unfold getTotalThreadCount. rewrite Hthr, Ht.
    rewrite map_size_insert_None by done. lia.
Qed.

Lemma createThread_sentinel_witness :
  let s := sample_system in
  let r := createThread "task" "" s in
  (r.1 = SIZE_MAX <->
     factories_ (mgr s) !! "task" = None \/
     ((0 < maxThreads_ (mgr s))%N /\
      (maxThreads_ (mgr s) <= N.of_nat (size (threads_ (mgr s))))%N) \/
     (exists f, factories_ (mgr s) !! "task" = Some f /\ (createWorker f).1 = None)) /\
  (r.1 = SIZE_MAX ->
     threads_ (mgr r.2) = threads_ (mgr s) /\
     getTotalThreadCount (mgr r.2) = getTotalThreadCount (mgr s)) /\
  (r.1 <> SIZE_MAX ->
     threads_ (mgr s) !! r.1 = None /\
     is_Some (threads_ (mgr r.2) !! r.1) /\
     getTotalThreadCount (mgr r.2) = (getTotalThreadCount (mgr s) + 1)%N).
Proof.
  apply (createThread_sentinel "task" "" sample_system).
  - reflexivity.
  - intros id [info Hinfo]. vm_compute in Hinfo. discriminate.
Defined.

(** *** The id counter along a schedule *)

Section ids.
Variables (k : N) (s : System).
Hypothesis Hroom : (2 * k + 4 < 2 ^ 64)%N.
Hypothesis Hinv : ids_inv k s.

Lemma startWorker_spawn_ids (w : Worker) (name : string) (s0 : System) :
  threads_ (mgr s0) = threads_ (mgr s) ->
  (nextId_ (mgr s) <= nextId_ (mgr s0) <= nextId_ (mgr s) + 1)%N ->
  ids_inv (k + 1) (startWorker_spawn w name s0).2.
Proof.
  destruct Hinv as (Hn & Hids & _). intros Ht Hn0.
  unfold ids_inv, startWorker_spawn. simpl.
  rewrite size_wrap_small by lia. rewrite Ht.
  split; [lia | split; [|lia]].
  intros id Hid. specialize (Hids id Hid). lia.
Qed.

Lemma name_or_auto_ids (prefix name : string) (s0 : System) :
  threads_ (mgr s0) = threads_ (mgr s) ->
  nextId_ (mgr s0) = nextId_ (mgr s) ->
  let s1 := (name_or_auto prefix name s0).2 in
  threads_ (mgr s1) = threads_ (mgr s) /\
  (nextId_ (mgr s) <= nextId_ (mgr s1) <= nextId_ (mgr s) + 1)%N.
Proof.
  destruct Hinv as (Hn & _ & _). intros Ht Hn0. unfold name_or_auto.
  destruct (decide (name = "")); simpl.
  - rewrite size_wrap_small by lia. split; [done | lia].
  - split; [done | lia].
Qed.

Lemma ids_inv_same (s' : System) :
  nextId_ (mgr s') = nextId_ (mgr s) ->
  (forall id, is_Some (threads_ (mgr s') !! id) -> is_Some (threads_ (mgr s) !! id)) ->
  (forall id n w t, caller s' = InStartWorker id n w t -> caller s = InStartWorker id n w t) ->
  ids_inv (k + 1) s'.
Proof.
  destruct Hinv as (Hn & Hids & Hc). intros Hn' Hsub Hcall.
  unfold ids_inv. rewrite Hn'. split; [lia | split].
  - intros id Hid. by apply Hids, Hsub.
  - destruct (caller s') as [|id n w t|] eqn:E; try done.
    by rewrite (Hcall id n w t eq_refl) in Hc.
Qed.

Lemma sys_step_ids (l : Label) (s' : System) :
  sys_step l s = Some s' -> ids_inv (k + 1) s'.
Proof.
  destruct l as [f0 ty|ty nm|ow nm|tid|tid|tid| | | |mx| |tid|dt]; simpl.
  1-10: destruct (caller s) eqn:Hcaller; try discriminate; simpl.
  - (* addFactory *)
    intros [= <-]. apply ids_inv_same; simpl.
    + unfold addFactory. by destruct (factories_ (mgr s) !! ty).
    + unfold addFactory. by destruct (factories_ (mgr s) !! ty).
    + by rewrite Hcaller.
  - (* createThread *)
    intros [= <-]. unfold createThread_spawn, createThread_via.
    destruct (factories_ (mgr s) !! ty) as [f|];
      [|apply ids_inv_same; simpl; rewrite ?Hcaller; done].
    destruct (at_ceiling (mgr s));
      [apply ids_inv_same; simpl; rewrite ?Hcaller; done|].
    simpl. destruct (produce f (made f)) as [w|];
      [|apply ids_inv_same; simpl; rewrite ?Hcaller; done].
    set (s0 := with_mgr _ s).
    destruct (name_or_auto_ids ty nm s0 eq_refl eq_refl) as [Ht Hn].
    destruct (name_or_auto ty nm s0) as [n s1]. simpl in *.
    by apply startWorker_spawn_ids.
  - (* createThreadWithWorker *)
    intros [= <-]. unfold createThreadWithWorker_spawn, createThreadWithWorker_via.
    destruct ow as [w|]; [|apply ids_inv_same; simpl; rewrite ?Hcaller; done].
    destruct (at_ceiling (mgr s));
      [apply ids_inv_same; simpl; rewrite ?Hcaller; done|].
    destruct (name_or_auto_ids (getType w) nm s eq_refl eq_refl) as [Ht Hn].
    destruct (name_or_auto (getType w) nm s) as [n s1]. simpl in *.
    by apply startWorker_spawn_ids.
  - (* stopThread *)
    intros [= <-]. unfold stopThread_request.
    destruct (threads_ (mgr s) !! tid) as [info|] eqn:Hinfo;
      [|apply ids_inv_same; simpl; rewrite ?Hcaller; done].
    destruct (thread info) as [[]|]; apply ids_inv_same; simpl; rewrite ?Hcaller; try done;
      intros id; rewrite lookup_insert_is_Some; intros [<- | [_ H]]; eauto.
  - (* pauseThread *)
    intros [= <-]. unfold pauseThread.
    destruct (threads_ (mgr s) !! tid) as [info|] eqn:Hinfo;
      [|apply ids_inv_same; simpl; rewrite ?Hcaller; done].
    destruct (isRunning (worker info)); apply ids_inv_same; simpl; rewrite ?Hcaller; try done.
    intros id; rewrite lookup_insert_is_Some; intros [<- | [_ H]]; eauto.
  - (* resumeThread *)
    intros [= <-]. unfold resumeThread.
    destruct (threads_ (mgr s) !! tid) as [info|] eqn:Hinfo;
      [|apply ids_inv_same; simpl; rewrite ?Hcaller; done].
    destruct (isPaused (worker info)); apply ids_inv_same; simpl; rewrite ?Hcaller; try done.
    intros id; rewrite lookup_insert_is_Some; intros [<- | [_ H]]; eauto.
  - (* stopAll *)
    intros [= <-]. apply ids_inv_same; simpl; rewrite ?Hcaller; try done.
    intros id. rewrite lookup_fmap. by rewrite fmap_is_Some.
  - (* waitForAll *)
    unfold waitForAll, cleanupFinishedThreadsUnsafe.
    repeat case_match; try discriminate. intros [= <-].
    apply ids_inv_same; simpl; rewrite ?Hcaller; try done.
    intros id [x Hx]. apply map_lookup_filter_Some in Hx as [Hx _]. eauto.
  - (* cleanup *)
    unfold cleanupFinishedThreadsUnsafe.
    repeat case_match; try discriminate. intros [= <-].
    apply ids_inv_same; simpl; rewrite ?Hcaller; try done.
    intros id [x Hx]. apply map_lookup_filter_Some in Hx as [Hx _]. eauto.
  - (* setMaxThreads *)
    intros [= <-]. apply ids_inv_same; simpl; rewrite ?Hcaller; done.
  - (* CallerStep *)
    destruct (caller s) as [|id n w t|id] eqn:Hcaller; try discriminate.
    + intros [= <-]. unfold startWorker_store. rewrite Hcaller.
      destruct Hinv as (Hn & Hids & Hc). rewrite Hcaller in Hc.
      unfold ids_inv. simpl. split; [lia | split; [|done]].
      intros id'. rewrite lookup_insert_is_Some. intros [<- | [_ H]]; eauto.
    + unfold stopThread_join. rewrite Hcaller.
      destruct (os_threads s !! id) as [[]|]; try discriminate. simpl.
      intros [= <-]. apply ids_inv_same; simpl; try done.
      intros id'. rewrite lookup_alter. case_decide; [subst|done].
      by rewrite fmap_is_Some.
  - (* ThreadStep *)
    unfold thread_step.
    destruct (os_threads s !! tid) as [pc|]; try discriminate.
    destruct (threads_ (mgr s) !! tid) as [info|] eqn:Hinfo.
    + destruct (thread_body_step pc info) as [[pc' info']|]; try discriminate.
      intros [= <-]. apply ids_inv_same; simpl; try done.
      intros id; rewrite lookup_insert_is_Some; intros [<- | [_ H]]; eauto.
    + destruct pc; try discriminate. intros [= <-]. apply ids_inv_same; simpl; done.
  - (* Tick *)
    destruct (0 <=? dt); try discriminate. intros [= <-]. apply ids_inv_same; simpl; done.
Qed.

End ids.

Lemma N_of_nat_S (n : nat) : N.of_nat (S n) = (N.of_nat n + 1)%N.
Proof. lia. Qed.

(** From a new manager, a schedule of fewer than [2^62] steps leaves the id
    counter below [SIZE_MAX - 1] and above every id in use. *)
Lemma exec_ids (sched : list Label) (s s' : System) (k : N) :
  ids_inv k s ->
  (2 * (k + N.of_nat (length sched)) + 4 < 2 ^ 64)%N ->
  exec sched s = Some s' ->
  ids_inv (k + N.of_nat (length sched)) s'.
Proof.
  revert s k. induction sched as [|l sched IH]; intros s k Hinv Hroom; simpl.
  - intros [= <-]. by rewrite N.add_0_r.
  - destruct (sys_step l s) as [s1|] eqn:Hstep; last done.
    intros Hexec. simpl in Hroom. rewrite N_of_nat_S in *.
    replace (k + (N.of_nat (length sched) + 1))%N with ((k + 1) + N.of_nat (length sched))%N by lia.
    apply (IH s1); [|lia|done].
    apply (sys_step_ids k s) with (l := l); [lia | done | done].
Qed.

Lemma new_System_ids (maxThreads : N) : ids_inv 0 (new_System maxThreads).
Proof.
  unfold ids_inv. simpl. split; [lia | split; [|done]].
  intros id [x Hx]. by rewrite lookup_empty in Hx.
Qed.

Lemma reachable_ids (sched : list Label) (maxThreads : N) (s : System) :
  (N.of_nat (length sched) < 2 ^ 62)%N ->
  exec sched (new_System maxThreads) = Some s ->
  (nextId_ (mgr s) + 1 < SIZE_MAX)%N /\
  (forall id, is_Some (threads_ (mgr s) !! id) -> (id < nextId_ (mgr s))%N).
Proof.
  intros Hlen Hexec.
  destruct (exec_ids sched (new_System maxThreads) s 0 (new_System_ids maxThreads)) as (Hn & Hids & _);
    [lia | done |].
  split; [|done]. rewrite SIZE_MAX_val. lia.
Qed.

(** ** The cooperative continuation check *)

Section shouldContinue_facts.
Variable obs : nat -> IThreadWorker.

Lemma poll_held (b : IThreadWorker) : held b -> shouldContinue_poll b = Sleep100.
Proof. intros [Hp Hs]. unfold shouldContinue_poll. by rewrite Hp, Hs. Qed.




End shouldContinue_facts.



(** ** Pause and resume *)

(** C3.  On a registered worker that is [RUNNING], [pauseThread] returns
    [true] and leaves the manager as it was: the worker is still [RUNNING]
    and its counters are untouched, but it has not been [PAUSED], so the
    [resumeThread] that follows returns [false]. *)
Theorem pause_then_resume (m : ThreadManager) (threadId : N) (info : ThreadInfo) :
  threads_ m !! threadId = Some info ->
  getState (worker info) = RUNNING ->
  let r1 := pauseThread threadId m in
  let r2 := resumeThread threadId r1.2 in
  r1.1 = true /\ r1.2 = m /\ r2.1 = false /\ r2.2 = m.
Proof.
  intros Hin Hrun.
  assert (Hp : pauseThread threadId m = (true, m)).
  { unfold pauseThread. rewrite Hin. unfold isRunning.
    rewrite bool_decide_eq_true_2 by done.
    unfold onPause. rewrite with_worker_id, insert_id by done. by destruct m. }
  simpl. rewrite Hp. simpl.
  unfold resumeThread. rewrite Hin. unfold isPaused.
  rewrite bool_decide_eq_false_2 by (rewrite Hrun; done). done.
Qed.

Lemma pause_then_resume_witness :
  let r1 := pauseThread 1 running_loop_mgr in
  let r2 := resumeThread 1 r1.2 in
  r1.1 = true /\ r1.2 = running_loop_mgr /\ r2.1 = false /\ r2.2 = running_loop_mgr.
Proof.
  apply (pause_then_resume running_loop_mgr 1 running_loop_info); reflexivity.
Defined.

(** ** The state machine of a worker *)

(** Every constructor leaves the worker [STOPPED], with no request set. *)
Lemma new_workers_stopped (interval count : Z) (f g h : option Callback) (d : string) :
  base (new_MonitorWorker interval f) = IThreadWorker_init /\
  base (new_TaskWorker f d) = IThreadWorker_init /\
  base (new_TimerWorker interval f count) = IThreadWorker_init /\
  base (new_LoopWorker count f g h) = IThreadWorker_init /\
  state IThreadWorker_init = STOPPED.
Proof. done. Qed.

Lemma getState_with_worker (f : Worker -> Worker) (info : ThreadInfo) :
  getState (worker (with_worker f info)) = getState (f (worker info)).
Proof. done. Qed.

Lemma getState_onStop (w : Worker) : getState (onStop w) = getState w.
Proof. unfold getState. by rewrite onStop_base. Qed.

(** Inside [run], the state is written on entry and on return, and nowhere
    else; no step leads back to the entry, and an exception leaves the state
    as it is. *)
Lemma run_step_state (pc : RunPc) (w : Worker) (r : RunResult) :
  run_step pc w = Some r ->
  match r with
  | Next pc' w' =>
      pc' <> Enter /\ pc <> Exit /\
      getState w' = match pc with Enter => RUNNING | _ => getState w end
  | Returned w' => pc = Exit /\ getState w' = FINISHED
  | Thrown _ w' => pc <> Enter /\ pc <> Exit /\ getState w' = getState w
  end.
Proof.
  destruct w as [b d]. unfold run_step. simpl.
  destruct d as [m|t|t|l]; destruct pc; simpl; intros H;
    repeat case_match; simplify_eq; done.
Qed.

Ltac unfold_entry :=
  cbv [entry_inv entry_step] in *; simpl in *;
  cbv [with_worker with_running onStart onError onPause onResume] in *; simpl in *.

Lemma entry_step_inv (ev : WorkerEvent) (c : ThreadPc * ThreadInfo) :
  entry_inv c ->
  entry_inv (entry_step ev c) /\
  phase_le (phase_of (getState (worker c.2)))
           (phase_of (getState (worker (entry_step ev c).2))) = true /\
  (getState (worker c.2) = FINISHED -> getState (worker (entry_step ev c).2) = FINISHED).
Proof.
  destruct c as [pc info]. intros Hinv.
  destruct ev.
  - destruct pc as [| | |rpc| | | |];
      try (unfold_entry; destruct (getState (worker info)); naive_solver).
    unfold entry_step. simpl.
    destruct (run_step rpc (worker info)) as [r|] eqn:Hr; simpl.
    2:{ unfold_entry. destruct rpc; destruct (getState (worker info)); naive_solver. }
    apply run_step_state in Hr.
    destruct r as [pc' w'|w'|e w']; unfold_entry.
    + destruct Hr as (Hne & Hnx & Hst). rewrite Hst.
      destruct rpc; try done; rewrite ?Hinv; destruct pc'; naive_solver.
    + destruct Hr as (-> & Hst). rewrite Hst, Hinv. naive_solver.
    + destruct Hr as (Hne & Hnx & Hst). rewrite Hst.
      destruct rpc; try done; rewrite ?Hinv; naive_solver.
  - unfold_entry. rewrite getState_onStop.
    destruct pc as [| | |[]| | | |]; destruct (getState (worker info)); naive_solver.
  - unfold_entry. destruct (isRunning (worker info)); simpl;
      destruct pc as [| | |[]| | | |]; destruct (getState (worker info)); naive_solver.
  - unfold_entry. destruct (isPaused (worker info)); simpl;
      destruct pc as [| | |[]| | | |]; destruct (getState (worker info)); naive_solver.
Qed.

Lemma observed_follows (evs : list WorkerEvent) (c : ThreadPc * ThreadInfo) (ph : Phase) :
  entry_inv c ->
  phase_le ph (phase_of (getState (worker c.2))) = true ->
  follows ph (observed evs c) = true.
Proof.
  revert c ph. induction evs as [|ev evs IH]; intros c ph Hinv Hle; simpl.
  - by rewrite Hle.
  - rewrite Hle. simpl.
    destruct (entry_step_inv ev c Hinv) as (Hinv' & Hle' & _).
    by apply IH.
Qed.

Lemma follows_PFinished (l : list ThreadState) (j : nat) (st : ThreadState) :
  follows PFinished l = true -> l !! j = Some st -> st = FINISHED.
Proof.
  revert j. induction l as [|x l IH]; intros j Hf Hj; first done.
  simpl in Hf. apply andb_true_iff in Hf as [Hx Hl].
  destruct x; try done.
  destruct j as [|j]; simpl in Hj; first congruence.
  by apply (IH j).
Qed.

Lemma follows_after (l : list ThreadState) (ph : Phase) (i : nat) (st : ThreadState) :
  follows ph l = true -> l !! i = Some st -> follows (phase_of st) (drop i l) = true.
Proof.
  revert ph i. induction l as [|x l IH]; intros ph i Hf Hi; first done.
  simpl in Hf. apply andb_true_iff in Hf as [Hx Hl].
  destruct i as [|i]; simpl in *.
  - assert (x = st) by congruence. subst x. rewrite Hl. by destruct st.
  - by apply (IH (phase_of x)).
Qed.

(** C4.  A worker that is [STOPPED] when its hosting thread finds it is read
    by a reader of [getState], whatever the hosting thread and the
    controlling thread do and in whatever order, along
    [Stopped, Running, (Paused, Running)*, Finished]: the first reading is
    [STOPPED], the readings follow the pattern, and after a reading of
    [FINISHED] every reading is [FINISHED]. *)
Theorem worker_lifecycle (info : ThreadInfo) (evs : list WorkerEvent) :
  getState (worker info) = STOPPED ->
  let readings := observed evs (TFind, info) in
  head readings = Some STOPPED /\
  lifecycle_ok readings = true /\
  (forall i j st, (i <= j)%nat ->
     readings !! i = Some FINISHED -> readings !! j = Some st -> st = FINISHED).
Proof.
  intros Hstopped readings.
  assert (Hok : lifecycle_ok readings = true).
  { apply observed_follows; [exact Hstopped | done]. }
  split; [|split; [exact Hok|]].
  - subst readings. destruct evs; simpl; by rewrite Hstopped.
  - intros i j st Hij Hi Hj.
    pose proof (follows_after readings PStopped i FINISHED Hok Hi) as Hdrop.
    apply (follows_PFinished (drop i readings) (j - i)); first done.
    rewrite lookup_drop. by replace (i + (j - i))%nat with j by lia.
Qed.

Lemma worker_lifecycle_witness :
  let info := mkThreadInfo (Some Joinable) (new_LoopWorker 2 None None None) false "" 0 in
  let readings := observed (replicate 12 HostStep) (TFind, info) in
  head readings = Some STOPPED /\
  lifecycle_ok readings = true /\
  (forall i j st, (i <= j)%nat ->
     readings !! i = Some FINISHED -> readings !! j = Some st -> st = FINISHED).
Proof.
  apply (worker_lifecycle
           (mkThreadInfo (Some Joinable) (new_LoopWorker 2 None None None) false "" 0)
           (replicate 12 HostStep)).
  reflexivity.
Defined.

(** The readings of the witness: the loop runs twice and [run] returns. *)
Example loop_readings :
  observed (replicate 12 HostStep)
    (TFind, mkThreadInfo (Some Joinable) (new_LoopWorker 2 None None None) false "" 0)
  = [STOPPED; STOPPED; STOPPED; STOPPED; RUNNING; RUNNING; RUNNING; RUNNING; RUNNING;
     RUNNING; RUNNING; RUNNING; FINISHED].
Proof. reflexivity. Qed.

Lemma entry_inv_not_paused (c : ThreadPc * ThreadInfo) :
  entry_inv c -> getState (worker c.2) <> PAUSED.
Proof.
  destruct c as [pc info]. unfold entry_inv. simpl. intros Hinv Hp.
  rewrite Hp in Hinv.
  destruct pc as [| | |[]| | | |]; try discriminate; by destruct Hinv.
Qed.

(** No event ever stores [PAUSED]: a worker that is [STOPPED] when its
    thread finds it is never read as [PAUSED], so [isPaused] never holds. *)
Lemma never_paused (evs : list WorkerEvent) (c : ThreadPc * ThreadInfo) :
  entry_inv c -> Forall (fun st => st <> PAUSED) (observed evs c).
Proof.
  revert c. induction evs as [|ev evs IH]; intros c Hinv; simpl.
  - constructor; [by apply entry_inv_not_paused | constructor].
  - constructor; [by apply entry_inv_not_paused |].
    apply IH. by apply entry_step_inv.
Qed.

(** ** The system acts on an entry through these events *)

Section system_and_entry.
Variables (s : System) (threadId : N) (pc : ThreadPc) (info : ThreadInfo).
Hypothesis Hpc : os_threads s !! threadId = Some pc.
Hypothesis Hinfo : threads_ (mgr s) !! threadId = Some info.

Lemma thread_step_entry (s' : System) :
  thread_step threadId s = Some s' ->
  os_threads s' !! threadId = Some (entry_step HostStep (pc, info)).1 /\
  threads_ (mgr s') !! threadId = Some (entry_step HostStep (pc, info)).2.
Proof.
  unfold thread_step, entry_step. rewrite Hpc, Hinfo. simpl.
  destruct (thread_body_step pc info) as [[pc' info']|]; last done.
  intros [= <-]. simpl. by rewrite !lookup_insert_eq.
Qed.

Lemma pauseThread_entry :
  threads_ (pauseThread threadId (mgr s)).2 !! threadId
  = Some (entry_step ControlPause (pc, info)).2.
Proof.
  unfold pauseThread, entry_step. rewrite Hinfo. simpl.
  destruct (isRunning (worker info)); simpl; [by rewrite lookup_insert_eq | done].
Qed.

Lemma resumeThread_entry :
  threads_ (resumeThread threadId (mgr s)).2 !! threadId
  = Some (entry_step ControlResume (pc, info)).2.
Proof.
  unfold resumeThread, entry_step. rewrite Hinfo. simpl.
  destruct (isPaused (worker info)); simpl; [by rewrite lookup_insert_eq | done].
Qed.

Lemma stopAll_entry :
  threads_ (stopAll (mgr s)) !! threadId = Some (entry_step ControlStop (pc, info)).2.
Proof. unfold stopAll. simpl. by rewrite lookup_fmap, Hinfo. Qed.

Lemma stopThread_request_entry :
  threads_ (mgr (stopThread_request threadId s).2) !! threadId
  = Some (entry_step ControlStop (pc, info)).2.
Proof.
  unfold stopThread_request. rewrite Hinfo.
  destruct (thread info) as [[]|]; simpl; by rewrite lookup_insert_eq.
Qed.

End system_and_entry.

(** ** Schedules *)

Lemma exec_app (a b : list Label) (s : System) :
  exec (a ++ b) s = match exec a s with Some s' => exec b s' | None => None end.
Proof.
  revert s. induction a as [|l a IH]; intros s; simpl; first done.
  by destruct (sys_step l s).
Qed.

Lemma exec_replicate_fixed (l : Label) (s : System) (n : nat) :
  sys_step l s = Some s -> exec (replicate n l) s = Some s.
Proof. intros H. induction n as [|n IH]; simpl; [done | by rewrite H]. Qed.

(** ** A fault inside [run] *)

(** Once [run] has been left by an exception, the worker is read as
    [RUNNING] for ever: nothing stores [FINISHED] any more. *)
Lemma fault_leaves_running (evs : list WorkerEvent) (pc : ThreadPc) (info : ThreadInfo) :
  getState (worker info) = RUNNING ->
  (exists e, pc = TCatch e) \/ pc = TClearRunning \/ pc = TNotify \/ pc = TExited ->
  Forall (fun st => st = RUNNING) (observed evs (pc, info)).
Proof.
  revert pc info. induction evs as [|ev evs IH]; intros pc info Hrun Hpc; simpl.
  - constructor; [done | constructor].
  - constructor; first done.
    destruct ev; simpl.
    + destruct Hpc as [[e ->] | [-> | [-> | ->]]]; simpl; apply IH; naive_solver.
    + apply IH; [by rewrite getState_with_worker, getState_onStop | done].
    + destruct (isRunning (worker info)); apply IH; done.
    + destruct (isPaused (worker info)); apply IH; done.
Qed.

(** C1.  A [MonitorWorker] whose callback throws "boom": the exception
    leaves [run], the thread body catches it and calls [onError], clears
    [running] and exits; the worker is then still [RUNNING], not [FINISHED].
    [waitForAll] returns and its cleanup keeps the entry, and the thread has
    no further step. *)
Theorem monitor_fault_not_finished :
  view 1 <$> exec (failing_monitor_start ++ replicate 6 (ThreadStep 1)) (new_System 0)
    = Some (Some (TCatch "boom"), Some true, Some RUNNING, Idle) /\
  view 1 <$> exec (failing_monitor_start ++ replicate 9 (ThreadStep 1)) (new_System 0)
    = Some (Some TExited, Some false, Some RUNNING, Idle) /\
  view 1 <$> exec (failing_monitor_start ++ replicate 9 (ThreadStep 1) ++ [CallWaitForAll])
               (new_System 0)
    = Some (Some TExited, Some false, Some RUNNING, Idle) /\
  exec (failing_monitor_start ++ replicate 10 (ThreadStep 1)) (new_System 0) = None.
Proof. repeat split; vm_compute; reflexivity. Qed.

(** ** Stopping a worker that waits in the continuation check *)

Lemma held_poll_repeats (pc : RunPc) (w : Worker) :
  held (base w) -> polling_point pc w = true -> run_step pc w = Some (Next pc w).
Proof.
  intros Hheld Hpp. apply poll_held in Hheld.
  destruct w as [b d]. unfold polling_point, run_step in *. simpl in *.
  destruct d as [m|t|t|l]; destruct pc; try discriminate; simpl; rewrite ?Hpp, ?Hheld; done.
Qed.

Lemma onStop_polling_point (pc : RunPc) (w : Worker) :
  polling_point pc (onStop w) = polling_point pc w.
Proof. by destruct w as [b []]. Qed.

Lemma with_worker_const (info : ThreadInfo) : with_worker (fun _ => worker info) info = info.
Proof. by destruct info. Qed.

(** If a worker were held at a point where [run] polls: after the [onStop]
    of [stopThread], any number of steps of its thread would leave it at
    that point and in its state, with [join] not enabled.  No worker gets
    there: nothing writes [shouldPause] ([no_poll_ever_sleeps] below). *)
Lemma held_worker_keeps_polling (s : System) (threadId : N) (pc : RunPc) (info : ThreadInfo)
  (n : nat) :
  caller s = Idle ->
  os_threads s !! threadId = Some (TRun pc) ->
  threads_ (mgr s) !! threadId = Some info ->
  thread info = Some Joinable ->
  held (base (worker info)) ->
  polling_point pc (worker info) = true ->
  exists s',
    exec (CallStopThread threadId :: replicate n (ThreadStep threadId)) s = Some s' /\
    view threadId s'
      = (Some (TRun pc), Some (running info), Some (getState (worker info)), InJoin threadId) /\
    sys_step CallerStep s' = None.
Proof.
  intros Hidle Hpc Hinfo Hjoin Hheld Hpp.
  set (info1 := with_worker onStop info).
  set (s1 := (stopThread_request threadId s).2).
  assert (Hs1 : s1 = with_caller (InJoin threadId)
                       (with_mgr (with_threads (<[threadId := info1]> (threads_ (mgr s))) (mgr s)) s)).
  { subst s1. unfold stopThread_request. by rewrite Hinfo, Hjoin. }
  assert (Hrun : run_step pc (worker info1) = Some (Next pc (worker info1))).
  { apply held_poll_repeats; simpl.
    - by rewrite onStop_base.
    - by rewrite onStop_polling_point. }
  assert (Hfix : sys_step (ThreadStep threadId) s1 = Some s1).
  { rewrite Hs1. simpl. unfold thread_step. simpl. rewrite Hpc, lookup_insert_eq. simpl.
    change (onStop (worker info)) with (worker info1). rewrite Hrun.
    rewrite with_worker_const, insert_insert_eq, (insert_id (os_threads s)) by done.
    by destruct s as [[] ? ? ?]. }
  exists s1. split; [|split].
  - simpl. rewrite Hidle. simpl. fold s1. by apply exec_replicate_fixed.
  - rewrite Hs1. unfold view, worker_state. simpl. rewrite Hpc, lookup_insert_eq. simpl.
    by rewrite getState_onStop.
  - rewrite Hs1. simpl. unfold stopThread_join. simpl. by rewrite Hpc.
Qed.

(** [onStop] sets neither flag, so the poll of a held worker still sleeps. *)
Lemma onStop_still_held (w : Worker) :
  shouldContinue_poll (base (onStop w)) = shouldContinue_poll (base w).
Proof. by rewrite onStop_base. Qed.

(** ** Thread creation and the registry entry *)

(** C5.  [startWorker] creates the thread before it stores the entry.  When
    the new thread runs [find] in between, it does not find its id: it exits
    without running the worker, which stays as it was handed in, and has
    no further step.  When it runs after the store, it finds the entry. *)
Theorem thread_created_before_entry (w : Worker) :
  view 1 <$> exec [CallCreateThreadWithWorker (Some w) "job"] (new_System 0)
    = Some (Some TFind, None, None, InStartWorker 1 "job" w 0) /\
  view 1 <$> exec [CallCreateThreadWithWorker (Some w) "job"; ThreadStep 1; CallerStep]
               (new_System 0)
    = Some (Some TExited, Some false, Some (getState w), Idle) /\
  exec [CallCreateThreadWithWorker (Some w) "job"; ThreadStep 1; CallerStep; ThreadStep 1]
    (new_System 0) = None /\
  view 1 <$> exec [CallCreateThreadWithWorker (Some w) "job"; CallerStep; ThreadStep 1]
               (new_System 0)
    = Some (Some TSetRunning, Some false, Some (getState w), Idle).
Proof. repeat split; vm_compute; reflexivity. Qed.

(** ** Waiting for all threads *)

(** With no registered thread [waitForAll] returns at once and changes
    nothing. *)
Lemma waitForAll_empty (s : System) :
  threads_ (mgr s) = ∅ -> waitForAll s = Some s.
Proof.
  intros Hempty. unfold waitForAll, allThreadsFinished, cleanupFinishedThreadsUnsafe.
  rewrite Hempty.
  rewrite !bool_decide_eq_true_2 by apply map_Forall_empty.
  rewrite map_filter_empty. destruct s as [[fs ts mx nx] th c t]. simpl in *. by subst.
Qed.

(** C6.  [waitForAll] right after a thread has been created, before the
    thread has had a step: no entry has [running] set, so it returns at once
    although the worker is [STOPPED], and the entry stays.  With no
    registered thread it returns at once too. *)
Theorem waitForAll_before_finished :
  view 1 <$> exec [CallCreateThreadWithWorker (Some (new_TaskWorker None "job")) "job";
                   CallerStep; CallWaitForAll] (new_System 0)
    = Some (Some TFind, Some false, Some STOPPED, Idle) /\
  (forall maxThreads, waitForAll (new_System maxThreads) = Some (new_System maxThreads)).
Proof. split; [vm_compute; reflexivity | intros n; vm_compute; reflexivity]. Qed.

Lemma int_wrap_small (z : Z) : int_range z -> int_wrap z = z.
Proof. unfold int_range, int_wrap. intros H. rewrite Z.mod_small; lia. Qed.

Lemma poll_no_request (b : IThreadWorker) :
  no_request b -> shouldContinue_poll b = Answer true.
Proof. intros [Hs Hp]. unfold shouldContinue_poll. by rewrite Hs, Hp. Qed.

Lemma run_from_S (fuel : nat) (pc : RunPc) (w : Worker) :
  run_from (S fuel) pc w =
    match run_step pc w with
    | Some (Next pc' w') => run_from fuel pc' w'
    | Some (Returned w') => Some (Normal w')
    | Some (Thrown e w') => Some (Escaped e w')
    | None => None
    end.
Proof. done. Qed.

(** More fuel does not change how a run ends. *)
Lemma run_from_more (fuel extra : nat) (pc : RunPc) (w : Worker) (r : RunEnd) :
  run_from fuel pc w = Some r -> run_from (fuel + extra) pc w = Some r.
Proof.
  revert pc w. induction fuel as [|fuel IH]; intros pc w; first done.
  simpl. destruct (run_step pc w) as [[pc' w'|w'|e w']|]; try done. apply IH.
Qed.

(** ** Whole runs of the workers *)

Section loop_runs.
Variables (n : Z) (cb sc ec : option Callback).
Hypothesis Hn : 0 <= n < 2 ^ 31 - 1.
Hypothesis Hec : invoke ec 0 = Returns.

Lemma loop_test_step (i c : Z) :
  run_step (LoopTest i) (loop_in n cb sc ec RUNNING c)
  = Some (Next (if i <=? n then LoopBody i else LoopEnd) (loop_in n cb sc ec RUNNING c)).
Proof. unfold run_step. simpl. by destruct (i <=? n). Qed.

Lemma loop_body_step (i c : Z) :
  run_step (LoopBody i) (loop_in n cb sc ec RUNNING c)
  = Some (Next (LoopTest (int_wrap (i + 1))) (loop_in n cb sc ec RUNNING i)).
Proof. unfold run_step. simpl. by destruct (invoke cb i). Qed.

Lemma loop_end_step (c : Z) :
  run_step LoopEnd (loop_in n cb sc ec RUNNING c) = Some (Next Exit (loop_in n cb sc ec RUNNING c)).
Proof. unfold run_step. simpl. by rewrite Hec. Qed.

Lemma loop_from_test (k : nat) (c : Z) :
  Z.of_nat k <= n ->
  run_from (3 + (k + k)) (LoopTest (n + 1 - Z.of_nat k)) (loop_in n cb sc ec RUNNING c)
  = Some (Normal (loop_in n cb sc ec FINISHED (if decide (k = 0%nat) then c else n))).
Proof.
  revert c. induction k as [|k IH]; intros c Hk.
  - cbn [Nat.add]. rewrite run_from_S, loop_test_step.
    destruct (Z.leb_spec (n + 1 - Z.of_nat 0) n); first lia.
    by rewrite run_from_S, loop_end_step.
  - replace (3 + (S k + S k))%nat with (S (S (3 + (k + k)))) by lia.
    rewrite run_from_S, loop_test_step.
    destruct (Z.leb_spec (n + 1 - Z.of_nat (S k)) n); last lia.
    rewrite run_from_S, loop_body_step.
    rewrite int_wrap_small by (unfold int_range; lia).
    replace (n + 1 - Z.of_nat (S k) + 1) with (n + 1 - Z.of_nat k) by lia.
    rewrite IH by lia. do 3 f_equal.
    destruct (decide (k = 0%nat)), (decide (S k = 0%nat)); subst; try done;
      f_equal; lia.
Qed.

End loop_runs.

(** X1.  A [LoopWorker] with no request outstanding, whose start and end
    callbacks are empty or return, and whose loop callback at every call
    returns or throws a [std::exception], runs its [loopCount_] iterations
    and returns [FINISHED] with [currentLoop_] at [loopCount_]: the
    [std::exception] of a loop callback is caught inside [run]. *)
Theorem LoopWorker_run_completes (b : IThreadWorker) (l : LoopWorker) :
  no_request b ->
  0 < loopCount_ l < 2 ^ 31 - 1 ->
  invoke (startCallback_ l) 0 = Returns ->
  invoke (endCallback_ l) 0 = Returns ->
  exists w',
    run (2 * Z.to_nat (loopCount_ l) + 5) (mkWorker b (Loop l)) = Some (Normal w') /\
    getState w' = FINISHED /\
    progress w' = loopCount_ l /\
    derived w' = Loop (mkLoop (loopCount_ l) (loopCallback_ l) (startCallback_ l)
                         (endCallback_ l) (loopCount_ l)).
Proof.
  destruct b as [st0 stop pause], l as [n cb sc ec c].
  cbn [loopCount_ startCallback_ endCallback_ loopCallback_].
  intros [Hs Hp] Hn Hsc Hec. simpl in Hs, Hp. subst stop pause.
  eexists. split.
  - replace (2 * Z.to_nat n + 5)%nat with (S (S (3 + (Z.to_nat n + Z.to_nat n)))) by lia.
    unfold run. rewrite run_from_S. unfold run_step at 1. cbn -[run_from Nat.add].
    rewrite run_from_S. unfold run_step at 1. cbn -[run_from Nat.add invoke]. rewrite Hsc.
    pose proof (loop_from_test n cb sc ec ltac:(lia) Hec (Z.to_nat n) c ltac:(lia)) as H.
    replace (n + 1 - Z.of_nat (Z.to_nat n)) with 1 in H by lia.
    exact H.
  - simpl. destruct (decide (Z.to_nat n = 0%nat)); [lia | done].
Qed.

Lemma LoopWorker_run_completes_witness :
  exists w',
    run (2 * Z.to_nat 5 + 5) (new_LoopWorker 5 (Some (fun _ => Throws "x")) None None)
      = Some (Normal w') /\
    getState w' = FINISHED /\
    progress w' = 5 /\
    derived w' = Loop (mkLoop 5 (Some (fun _ => Throws "x")) None None 5).
Proof.
  apply (LoopWorker_run_completes IThreadWorker_init
           (mkLoop 5 (Some (fun _ => Throws "x")) None None 0)).
  - split; reflexivity.
  - simpl. lia.
  - reflexivity.
  - reflexivity.
Defined.

(** X2.  A [LoopWorker] whose [loopCount_] is zero or negative and whose
    start and end callbacks are empty or return runs no iteration: [run]
    returns [FINISHED] after five steps, [currentLoop_] and the flags are
    as they were, and the loop callback is not called. *)
Theorem LoopWorker_run_empty (b : IThreadWorker) (l : LoopWorker) :
  loopCount_ l <= 0 ->
  invoke (startCallback_ l) 0 = Returns ->
  invoke (endCallback_ l) 0 = Returns ->
  run 5 (mkWorker b (Loop l))
  = Some (Normal (mkWorker (mkIThreadWorker FINISHED (shouldStop b) (shouldPause b)) (Loop l))).
Proof.
  destruct b as [st0 stop pause], l as [n cb sc ec c].
  cbn [loopCount_ startCallback_ endCallback_ shouldStop shouldPause].
  intros Hn Hsc Hec.
  unfold run. rewrite run_from_S. unfold run_step at 1. cbn -[run_from invoke].
  rewrite run_from_S. unfold run_step at 1. cbn -[run_from invoke]. rewrite Hsc.
  rewrite run_from_S. unfold run_step at 1. cbn -[run_from invoke].
  destruct (Z.leb_spec 1 n); first lia.
  rewrite run_from_S. unfold run_step at 1. cbn -[run_from invoke]. rewrite Hec.
  done.
Qed.

Lemma LoopWorker_run_empty_witness :
  run 5 (mkWorker IThreadWorker_init (Loop (mkLoop (-3) None None None 0)))
  = Some (Normal (mkWorker (mkIThreadWorker FINISHED false false)
                    (Loop (mkLoop (-3) None None None 0)))).
Proof.
  apply (LoopWorker_run_empty IThreadWorker_init (mkLoop (-3) None None None 0)).
  - simpl. lia.
  - reflexivity.
  - reflexivity.
Defined.

Section timer_runs.
Variables (iv m : Z) (cb : option Callback).
Hypothesis Hm : 0 < m < 2 ^ 31.

Lemma timer_test_step (c : Z) :
  run_step TimTest (timer_in iv m cb RUNNING c)
  = Some (Next (if m <=? c then Exit else TimSleep) (timer_in iv m cb RUNNING c)).
Proof.
  unfold run_step. simpl. destruct (Z.ltb_spec 0 m); last lia. simpl.
  by destruct (m <=? c).
Qed.

Lemma timer_fire_step (c : Z) :
  run_step TimFire (timer_in iv m cb RUNNING c)
  = Some (Next TimTest (timer_in iv m cb RUNNING (int_wrap (c + 1)))).
Proof. unfold run_step. simpl. by destruct (invoke cb (int_wrap (c + 1))). Qed.

Lemma timer_from_test (k : nat) :
  Z.of_nat k <= m ->
  run_from (2 + 4 * k) TimTest (timer_in iv m cb RUNNING (m - Z.of_nat k))
  = Some (Normal (timer_in iv m cb FINISHED m)).
Proof.
  induction k as [|k IH]; intros Hk.
  - replace (m - Z.of_nat 0) with m by lia.
    cbn [Nat.add Nat.mul]. rewrite run_from_S, timer_test_step.
    destruct (Z.leb_spec m m); last lia.
    by rewrite run_from_S.
  - replace (2 + 4 * S k)%nat with (S (S (S (S (2 + 4 * k))))) by lia.
    rewrite run_from_S, timer_test_step.
    destruct (Z.leb_spec m (m - Z.of_nat (S k))); first lia.
    rewrite run_from_S. unfold run_step at 1. cbn -[run_from Nat.add Nat.mul].
    rewrite run_from_S. unfold run_step at 1. cbn -[run_from Nat.add Nat.mul].
    rewrite run_from_S, timer_fire_step.
    rewrite int_wrap_small by (unfold int_range; lia).
    replace (m - Z.of_nat (S k) + 1) with (m - Z.of_nat k) by lia.
    apply IH. lia.
Qed.

End timer_runs.

(** X3.  A [TimerWorker] with a positive trigger limit and no request
    outstanding, whose callback is empty or at every call returns or throws
    a [std::exception], fires until [triggerCount_] is at the limit and
    returns [FINISHED]: the [std::exception] of a callback is caught inside
    [run]. *)
Theorem TimerWorker_run_reaches_limit (b : IThreadWorker) (t : TimerWorker) :
  no_request b ->
  0 < maxTriggers_ t < 2 ^ 31 ->
  0 <= triggerCount_ t <= maxTriggers_ t ->
  exists w',
    run (4 * Z.to_nat (maxTriggers_ t - triggerCount_ t) + 3) (mkWorker b (Timer t))
      = Some (Normal w') /\
    getState w' = FINISHED /\
    progress w' = maxTriggers_ t.
Proof.
  destruct b as [st0 stop pause], t as [iv cb m c].
  cbn [maxTriggers_ triggerCount_].
  intros [Hs Hp] Hm Hc. simpl in Hs, Hp. subst stop pause.
  eexists. split.
  - replace (4 * Z.to_nat (m - c) + 3)%nat with (S (2 + 4 * Z.to_nat (m - c))) by lia.
    unfold run. rewrite run_from_S. unfold run_step at 1. cbn -[run_from Nat.add Nat.mul].
    pose proof (timer_from_test iv m cb Hm (Z.to_nat (m - c)) ltac:(lia)) as H.
    replace (m - Z.of_nat (Z.to_nat (m - c))) with c in H by lia.
    exact H.
  - done.
Qed.

Lemma TimerWorker_run_reaches_limit_witness :
  exists w',
    run (4 * Z.to_nat (3 - 0) + 3) (new_TimerWorker 800 None 3) = Some (Normal w') /\
    getState w' = FINISHED /\
    progress w' = 3.
Proof.
  apply (TimerWorker_run_reaches_limit IThreadWorker_init (mkTimer 800 None 3 0)).
  - split; reflexivity.
  - simpl. lia.
  - simpl. lia.
Defined.

(** X4.  [TaskWorker::run] with a task that is empty, returns or throws a
    [std::exception] returns after three steps and [FINISHED], whatever the
    flags: the [std::exception] is caught inside [run].  [completed_] is
    set when there is a task and it returned, and keeps its value
    otherwise. *)
Theorem TaskWorker_run_finishes (b : IThreadWorker) (t : TaskWorker) :
  exists w' t',
    run 3 (mkWorker b (Task t)) = Some (Normal w') /\
    getState w' = FINISHED /\
    derived w' = Task t' /\
    task_ t' = task_ t /\ description_ t' = description_ t /\
    completed_ t' =
      match task_ t with
      | Some f => match f 0 with Returns => true | Throws _ => completed_ t end
      | None => completed_ t
      end.
Proof.
  destruct b as [st0 stop pause], t as [[f|] d c]; unfold run; simpl; unfold run_step; simpl.
  - destruct (f 0); simpl; unfold run_step; simpl; eexists _, _; repeat split.
  - unfold run_step. simpl. eexists _, _. repeat split.
Qed.

(** ** Stopping a monitor *)

Lemma monitor_inv_step (pc : RunPc) (w : Worker) :
  monitor_inv pc w ->
  exists pc' w', run_step pc w = Some (Next pc' w') /\ monitor_inv pc' w'.
Proof.
  intros (Hpc & [Hs Hp] & m & Hd & Hen & Hcb).
  destruct w as [[st stop pause] d]. simpl in *. subst d stop pause.
  unfold run_step. simpl.
  destruct Hpc as [-> | [-> | [-> | ->]]]; simpl.
  - eexists _, _. split; [done|]. unfold monitor_inv, no_request. simpl. eauto 10.
  - rewrite Hen. simpl. eexists _, _. split; [done|].
    unfold monitor_inv, no_request. simpl. eauto 10.
  - rewrite Hcb. eexists _, _. split; [done|].
    unfold monitor_inv, no_request. simpl. split; [eauto|]. split; [done|].
    eexists. split; [done|]. simpl. eauto.
  - eexists _, _. split; [done|]. unfold monitor_inv, no_request. simpl. eauto 10.
Qed.

(** X5.  A [MonitorWorker] that is enabled, with no request outstanding and
    a callback that never throws, does not leave [run] by itself: however
    many steps it is given, [run] has not ended. *)
Theorem MonitorWorker_runs_until_disabled (b : IThreadWorker) (m : MonitorWorker)
  (fuel : nat) :
  no_request b ->
  enabled_ m = true ->
  (forall z, invoke (mon_callback_ m) z = Returns) ->
  run fuel (mkWorker b (Monitor m)) = None.
Proof.
  intros Hb Hen Hcb. unfold run.
  assert (Hinv : monitor_inv Enter (mkWorker b (Monitor m))).
  { unfold monitor_inv. simpl. eauto 10. }
  revert Hinv. generalize Enter (mkWorker b (Monitor m)).
  induction fuel as [|fuel IH]; intros pc w Hinv; first done.
  destruct (monitor_inv_step pc w Hinv) as (pc' & w' & Hstep & Hinv').
  rewrite run_from_S, Hstep. by apply IH.
Qed.

Lemma MonitorWorker_runs_until_disabled_witness :
  run 1000 (new_MonitorWorker 1000 None) = None.
Proof.
  apply (MonitorWorker_runs_until_disabled IThreadWorker_init (mkMonitor 1000 None true 0) 1000).
  - split; reflexivity.
  - reflexivity.
  - intros z. reflexivity.
Defined.

(** X6.  After [onStop], a [MonitorWorker] with no request outstanding that
    is about to enter [run], at the loop test or in its sleep leaves the
    loop without another iteration: [run] returns [FINISHED] within three
    steps and [iterationCount_] is unchanged. *)
Theorem MonitorWorker_onStop_ends_run (pc : RunPc) (b : IThreadWorker) (m : MonitorWorker) :
  no_request b ->
  pc = Enter \/ pc = MonTest \/ pc = MonSleep ->
  run_from 3 pc (onStop (mkWorker b (Monitor m)))
  = Some (Normal (mkWorker (mkIThreadWorker FINISHED false false)
                    (Monitor (mkMonitor (mon_interval_ m) (mon_callback_ m) false
                                (iterationCount_ m))))).
Proof.
  destruct b as [st stop pause], m as [iv cb en c].
  intros [Hs Hp] Hpc. simpl in Hs, Hp. subst stop pause.
  destruct Hpc as [-> | [-> | ->]]; reflexivity.
Qed.

Lemma MonitorWorker_onStop_ends_run_witness :
  run_from 3 MonSleep (onStop (mkWorker (mkIThreadWorker RUNNING false false)
                                 (Monitor (mkMonitor 1000 None true 7))))
  = Some (Normal (mkWorker (mkIThreadWorker FINISHED false false)
                    (Monitor (mkMonitor 1000 None false 7)))).
Proof.
  apply (MonitorWorker_onStop_ends_run MonSleep (mkIThreadWorker RUNNING false false)
           (mkMonitor 1000 None true 7)).
  - split; reflexivity.
  - right; right; reflexivity.
Defined.

(** ** What no event changes *)

Lemma run_step_flags (pc : RunPc) (w : Worker) (r : RunResult) :
  run_step pc w = Some r ->
  let w' := match r with Next _ w' | Returned w' | Thrown _ w' => w' end in
  shouldStop (base w') = shouldStop (base w) /\
  shouldPause (base w') = shouldPause (base w).
Proof.
  destruct w as [b d]. unfold run_step. simpl.
  destruct d as [m|t|t|l]; destruct pc; simpl; intros H;
    repeat case_match; simplify_eq; done.
Qed.

Lemma entry_step_flags (ev : WorkerEvent) (c : ThreadPc * ThreadInfo) :
  shouldStop (base (worker (entry_step ev c).2)) = shouldStop (base (worker c.2)) /\
  shouldPause (base (worker (entry_step ev c).2)) = shouldPause (base (worker c.2)).
Proof.
  destruct c as [pc info]. destruct ev; simpl.
  - destruct pc as [| | |rpc| | | |]; simpl; try done.
    destruct (run_step rpc (worker info)) as [r|] eqn:Hr; last done.
    apply run_step_flags in Hr. by destruct r.
  - by rewrite onStop_base.
  - by destruct (isRunning (worker info)).
  - by destruct (isPaused (worker info)).
Qed.

(** X7.  Nothing sets or clears a request flag: whatever the hosting thread
    and the controlling thread do to a registered worker, [shouldStop] and
    [shouldPause] are as they were. *)
Theorem request_flags_never_written (evs : list WorkerEvent) (c : ThreadPc * ThreadInfo) :
  shouldStop (base (worker (entry_exec evs c).2)) = shouldStop (base (worker c.2)) /\
  shouldPause (base (worker (entry_exec evs c).2)) = shouldPause (base (worker c.2)).
Proof.
  revert c. induction evs as [|ev evs IH]; intros c; first done.
  unfold entry_exec in *. simpl.
  destruct (IH (entry_step ev c)) as [Hs Hp].
  destruct (entry_step_flags ev c) as [Hs' Hp'].
  split; congruence.
Qed.

(** No continuation check ever sleeps: a worker handed over with no request
    set, as every constructor leaves it, has no request set at any later
    moment, so each [shouldContinue] it calls returns [true] at its first
    poll. *)
Lemma no_poll_ever_sleeps (info : ThreadInfo) (evs : list WorkerEvent) :
  no_request (base (worker info)) ->
  let c := entry_exec evs (TFind, info) in
  no_request (base (worker c.2)) /\
  shouldContinue_poll (base (worker c.2)) = Answer true /\
  ~ held (base (worker c.2)).
Proof.
  intros Hreq c.
  assert (H : no_request (base (worker c.2))).
  { subst c. revert Hreq. change info with (TFind, info).2 at 1.
    generalize (TFind, info).
    induction evs as [|ev evs IH]; intros c0 Hc0; first done.
    unfold entry_exec in *. simpl. apply IH.
    destruct (entry_step_flags ev c0) as [Hs Hp]. destruct Hc0 as [Hs0 Hp0].
    split; congruence. }
  split; [done|]. split; [by apply poll_no_request|].
  destruct H as [_ Hp]. intros [Hp' _]. congruence.
Qed.

(** ** The [running] flag *)

Lemma entry_step_running (ev : WorkerEvent) (c : ThreadPc * ThreadInfo) :
  running c.2 = running_pc c.1 ->
  running (entry_step ev c).2 = running_pc (entry_step ev c).1.
Proof.
  destruct c as [pc info]. destruct ev; simpl.
  - destruct pc as [| | |rpc| | | |]; simpl; try done.
    destruct (run_step rpc (worker info)) as [[pc' w'|w'|e w']|]; simpl; try done.
    (* [run] returned: [running] is still set at [TClearRunning] *)
  - done.
  - by destruct (isRunning (worker info)).
  - by destruct (isPaused (worker info)).
Qed.

(** X8.  From the moment its thread looks the entry up, the [running] flag
    of an entry that starts clear is set exactly while the thread is between
    its [running.store(true)] and its [running.store(false)]; in particular
    it is clear once the thread has exited, whether [run] returned or
    threw. *)
Theorem running_tracks_thread (info : ThreadInfo) (evs : list WorkerEvent) :
  running info = false ->
  let c := entry_exec evs (TFind, info) in
  running c.2 = running_pc c.1 /\ (c.1 = TExited -> running c.2 = false).
Proof.
  intros Hclear c.
  assert (H : running c.2 = running_pc c.1).
  { subst c. assert (Hinit : running (TFind, info).2 = running_pc (TFind, info).1) by done.
    revert Hinit. generalize (TFind, info).
    induction evs as [|ev evs IH]; intros c0 Hc0; first done.
    unfold entry_exec in *. simpl. apply IH. by apply entry_step_running. }
  split; first done. intros Hex. by rewrite H, Hex.
Qed.

Lemma running_tracks_thread_witness :
  let c := entry_exec (replicate 8 HostStep)
             (TFind, mkThreadInfo (Some Joinable) (new_TaskWorker None "job") false "" 0) in
  running c.2 = running_pc c.1 /\ (c.1 = TExited -> running c.2 = false).
Proof.
  apply (running_tracks_thread
           (mkThreadInfo (Some Joinable) (new_TaskWorker None "job") false "" 0)
           (replicate 8 HostStep)).
  reflexivity.
Defined.

(** ** A timer without a limit *)

Lemma unbounded_timer_step (ev : WorkerEvent) (c : ThreadPc * ThreadInfo) :
  timer_loop_pc c.1 -> unbounded_timer (worker c.2) -> no_request (base (worker c.2)) ->
  timer_loop_pc (entry_step ev c).1 /\ unbounded_timer (worker (entry_step ev c).2) /\
  no_request (base (worker (entry_step ev c).2)).
Proof.
  destruct c as [pc [h [[st stop pause] d] r nm t0]].
  intros Hpc (t & Hd & Hmax) [Hs Hp]. simpl in *. subst d stop pause.
  destruct t as [iv cb m c].  simpl in Hmax.
  assert (Hlim : (0 <? m) = false) by lia.
  destruct ev; simpl.
  - destruct pc as [| | |[]| | | |]; try done; simpl;
      unfold run_step, unbounded_timer, no_request; simpl; rewrite ?Hlim; simpl;
      try (split; [done | split; [eauto | done]]).
    destruct (invoke cb (int_wrap (c + 1))); simpl; (split; [done | split; [eauto | done]]).
  - unfold unbounded_timer, no_request. simpl. split; [done | split; [eauto | done]].
  - unfold isRunning. case_bool_decide; simpl;
      unfold unbounded_timer, no_request; simpl; (split; [done | split; [eauto | done]]).
  - unfold isPaused. case_bool_decide; simpl;
      unfold unbounded_timer, no_request; simpl; (split; [done | split; [eauto | done]]).
Qed.

(** X9.  A [TimerWorker] whose trigger limit is zero or negative, with no
    request outstanding, never leaves [run]: whatever the hosting thread and
    the controlling thread do, [onStop] included, its thread does not exit
    and the worker is never [FINISHED]. *)
Theorem unbounded_timer_never_exits (info : ThreadInfo) (t : TimerWorker)
  (evs : list WorkerEvent) :
  derived (worker info) = Timer t ->
  maxTriggers_ t <= 0 ->
  no_request (base (worker info)) ->
  getState (worker info) = STOPPED ->
  let c := entry_exec evs (TFind, info) in
  c.1 <> TExited /\ timer_loop_pc c.1 /\ getState (worker c.2) <> FINISHED.
Proof.
  intros Hd Hmax Hreq Hst c.
  assert (H : timer_loop_pc c.1 /\ entry_inv c).
  { subst c.
    assert (Hinit : timer_loop_pc (TFind, info).1 /\ unbounded_timer (worker (TFind, info).2) /\
                    no_request (base (worker (TFind, info).2)) /\ entry_inv (TFind, info)).
    { unfold unbounded_timer. simpl. eauto 10. }
    revert Hinit. generalize (TFind, info).
    induction evs as [|ev evs IH]; intros c0 (Hpc & Ht & Hr & Hinv); first done.
    unfold entry_exec in *. simpl. apply IH.
    destruct (unbounded_timer_step ev c0 Hpc Ht Hr) as (? & ? & ?).
    repeat (split; first done). by apply entry_step_inv. }
  destruct H as [Hpc Hinv].
  split; [|split; [done|]].
  - intros Hex. by rewrite Hex in Hpc.
  - destruct c as [pc info']. unfold entry_inv in Hinv. simpl in *.
    destruct pc as [| | |[]| | | |]; try done; by rewrite Hinv.
Qed.

Lemma unbounded_timer_never_exits_witness :
  let c := entry_exec (replicate 50 HostStep ++ [ControlStop] ++ replicate 50 HostStep)
             (TFind, mkThreadInfo (Some Joinable) (new_TimerWorker 800 None (-1)) false "" 0) in
  c.1 <> TExited /\ timer_loop_pc c.1 /\ getState (worker c.2) <> FINISHED.
Proof.
  apply (unbounded_timer_never_exits
           (mkThreadInfo (Some Joinable) (new_TimerWorker 800 None (-1)) false "" 0)
           (mkTimer 800 None (-1) 0)).
  - reflexivity.
  - simpl. lia.
  - split; reflexivity.
  - reflexivity.
Defined.

(** ** Pause, resume and stop requests *)

(** X10.  [pauseThread] and [resumeThread] never change the manager or any
    worker.  [pauseThread] returns [true] exactly for a registered id whose
    worker is [RUNNING], [resumeThread] exactly for one whose worker is
    [PAUSED]; an unknown id gives [false]. *)
Theorem pause_resume_only_report (threadId : N) (m : ThreadManager) :
  (pauseThread threadId m).2 = m /\
  (resumeThread threadId m).2 = m /\
  ((pauseThread threadId m).1 = true <->
     exists info, threads_ m !! threadId = Some info /\ getState (worker info) = RUNNING) /\
  ((resumeThread threadId m).1 = true <->
     exists info, threads_ m !! threadId = Some info /\ getState (worker info) = PAUSED).
Proof.
  unfold pauseThread, resumeThread, isRunning, isPaused, onPause, onResume.
  destruct (threads_ m !! threadId) as [info|] eqn:Hinfo.
  - assert (Hsame : with_threads
                      (<[threadId := with_worker (fun w => w) info]> (threads_ m)) m = m)
      by (rewrite with_worker_id, insert_id by done; by destruct m).
    destruct (getState (worker info)) eqn:Hst; simpl; rewrite ?Hsame;
      (split; [done|]); (split; [done|]);
      split; split; try done; try (intros (i & [= <-] & H); congruence); eauto.
  - simpl. repeat split; try done; by intros (i & ? & _).
Qed.




(** ** Counting and reporting *)

(** X12.  The number of active threads never exceeds the number of
    registered threads. *)
Theorem active_le_total (m : ThreadManager) :
  (getActiveThreadCount m <= getTotalThreadCount m)%N.
Proof.
  unfold getActiveThreadCount, getTotalThreadCount.
  apply N2Z.inj_le. rewrite !nat_N_Z. apply Nat2Z.inj_le.
  apply map_subseteq_size, map_filter_subseteq.
Qed.

Lemma app_empty_r_inv (a b : string) : a +:+ b = "" -> b = "".
Proof. destruct a; simpl; [done | discriminate]. Qed.

(** X13.  [getThreadStatus] returns the empty string for an unknown id and
    for no registered id. *)
Theorem getThreadStatus_empty_iff_unknown (threadId : N) (m : ThreadManager) :
  getThreadStatus threadId m = "" <-> threads_ m !! threadId = None.
Proof.
  unfold getThreadStatus.
  destruct (threads_ m !! threadId) as [info|]; last done.
  split; last done. intros H.
  apply app_empty_r_inv in H. discriminate.
Qed.

(** ** Cleanup *)



(** ** Creating threads, in full *)

(** The whole effect of [startWorker] while the id counter is not exhausted
    and the ids in use are below it. *)
Lemma startWorker_effect (w : Worker) (name : string) (s : System) :
  (nextId_ (mgr s) < SIZE_MAX)%N ->
  (forall id, is_Some (threads_ (mgr s) !! id) -> (id < nextId_ (mgr s))%N) ->
  threads_ (mgr s) !! nextId_ (mgr s) = None /\
  startWorker w name s =
    (nextId_ (mgr s),
     mkSystem
       (mkThreadManager (factories_ (mgr s))
          (<[nextId_ (mgr s) := mkThreadInfo (Some Joinable) w false "" (now s)]>
             (threads_ (mgr s)))
          (maxThreads_ (mgr s)) (nextId_ (mgr s) + 1))
       (<[nextId_ (mgr s) := TFind]> (os_threads s)) Idle (now s)).
Proof.
  intros Hlt Hids.
  assert (Hnone : threads_ (mgr s) !! nextId_ (mgr s) = None).
  { destruct (threads_ (mgr s) !! nextId_ (mgr s)) eqn:E; last done.
    specialize (Hids (nextId_ (mgr s)) (ex_intro _ _ E)). lia. }
  split; first done.
  unfold startWorker, startWorker_spawn, startWorker_store. simpl.
  rewrite Hnone. simpl. unfold with_threads, with_nextId, onInitialize. simpl.
  rewrite size_wrap_small; first done.
  rewrite SIZE_MAX_val in Hlt. lia.
Qed.

Section creation.
Variables (w : Worker) (name : string) (s : System).
Hypothesis Hroom : (nextId_ (mgr s) + 1 < SIZE_MAX)%N.
Hypothesis Hids : forall id, is_Some (threads_ (mgr s) !! id) -> (id < nextId_ (mgr s))%N.

Lemma start_named_effect (prefix : string) :
  (let (n, s1) := name_or_auto prefix name s in startWorker w n s1) =
    ((created_id name s),
     mkSystem
       (mkThreadManager (factories_ (mgr s))
          (<[(created_id name s) := mkThreadInfo (Some Joinable) w false "" (now s)]>
             (threads_ (mgr s)))
          (maxThreads_ (mgr s)) ((created_id name s) + 1))
       (<[(created_id name s) := TFind]> (os_threads s)) Idle (now s)) /\
  threads_ (mgr s) !! (created_id name s) = None.
Proof.
  unfold name_or_auto, created_id. destruct (decide (name = "")) as [Hname|Hname].
  - unfold auto_name.
    set (s1 := with_mgr _ s).
    assert (Hn1 : nextId_ (mgr s1) = (nextId_ (mgr s) + 1)%N).
    { subst s1. simpl. apply size_wrap_small. rewrite SIZE_MAX_val in Hroom. lia. }
    destruct (startWorker_effect w (prefix +:+ "_" +:+ pretty (nextId_ (mgr s))) s1)
      as [Hnone Heq].
    + rewrite Hn1. lia.
    + intros id Hid. rewrite Hn1. specialize (Hids id Hid). lia.
    + rewrite Heq, Hn1. split; [done|]. by rewrite Hn1 in Hnone.
  - destruct (startWorker_effect w name s) as [Hnone Heq]; [lia | done |].
    by rewrite Heq.
Qed.

End creation.

(** X15.  While the id counter is not exhausted and the manager is below
    its ceiling, [createThreadWithWorker] with a worker returns the counter,
    or the counter plus one when the name is empty (the automatic name takes
    one value), which is an id not in use; it leaves the counter one above
    the id, registers the worker as handed in under that id with [running]
    clear and a joinable thread at its first step, and changes no other
    entry and no factory. *)
Theorem createThreadWithWorker_registers (w : Worker) (name : string) (s : System) :
  (nextId_ (mgr s) + 1 < SIZE_MAX)%N ->
  (forall id, is_Some (threads_ (mgr s) !! id) -> (id < nextId_ (mgr s))%N) ->
  at_ceiling (mgr s) = false ->
  let r := createThreadWithWorker (Some w) name s in
  let id := if decide (name = "") then (nextId_ (mgr s) + 1)%N else nextId_ (mgr s) in
  r.1 = id /\ id <> SIZE_MAX /\
  threads_ (mgr s) !! id = None /\
  threads_ (mgr r.2)
    = <[id := mkThreadInfo (Some Joinable) w false "" (now s)]> (threads_ (mgr s)) /\
  nextId_ (mgr r.2) = (id + 1)%N /\
  os_threads r.2 = <[id := TFind]> (os_threads s) /\
  factories_ (mgr r.2) = factories_ (mgr s) /\
  caller r.2 = Idle.
Proof.
  intros Hroom Hids Hc. simpl.
  unfold createThreadWithWorker, createThreadWithWorker_via. rewrite Hc.
  destruct (start_named_effect w name s Hroom Hids (getType w)) as [Heq Hnone].
  rewrite Heq. unfold created_id in *. simpl.
  repeat (split; first done).
  split; last done.
  rewrite SIZE_MAX_val in *. case_decide; lia.
Qed.

Lemma createThreadWithWorker_registers_witness :
  let w := new_TimerWorker 800 None 3 in
  let s := sample_system in
  let r := createThreadWithWorker (Some w) "" s in
  let id := if decide ("" = "") then (nextId_ (mgr s) + 1)%N else nextId_ (mgr s) in
  r.1 = id /\ id <> SIZE_MAX /\
  threads_ (mgr s) !! id = None /\
  threads_ (mgr r.2)
    = <[id := mkThreadInfo (Some Joinable) w false "" (now s)]> (threads_ (mgr s)) /\
  nextId_ (mgr r.2) = (id + 1)%N /\
  os_threads r.2 = <[id := TFind]> (os_threads s) /\
  factories_ (mgr r.2) = factories_ (mgr s) /\
  caller r.2 = Idle.
Proof.
  apply (createThreadWithWorker_registers (new_TimerWorker 800 None 3) "" sample_system).
  - reflexivity.
  - intros id [info Hinfo]. vm_compute in Hinfo. discriminate.
  - reflexivity.
Defined.

(** X16.  The name given to [createThreadWithWorker] is not stored: the
    status of the new thread starts with an empty name, whatever name was
    passed. *)
Theorem created_thread_has_no_name (w : Worker) (given : string) (s : System) :
  (nextId_ (mgr s) + 1 < SIZE_MAX)%N ->
  (forall id, is_Some (threads_ (mgr s) !! id) -> (id < nextId_ (mgr s))%N) ->
  at_ceiling (mgr s) = false ->
  let r := createThreadWithWorker (Some w) given s in
  name <$> threads_ (mgr r.2) !! r.1 = Some "" /\
  getThreadStatus r.1 (mgr r.2) = " [" +:+ getType w +:+ "]: " +:+ stateStr (getState w).
Proof.
  intros Hroom Hids Hc. simpl.
  unfold createThreadWithWorker, createThreadWithWorker_via. rewrite Hc.
  destruct (start_named_effect w given s Hroom Hids (getType w)) as [Heq _].
  rewrite Heq. unfold getThreadStatus. simpl. by rewrite lookup_insert_eq.
Qed.

Lemma created_thread_has_no_name_witness :
  let r := createThreadWithWorker (Some (new_MonitorWorker 1000 None)) "SystemMonitor"
             (new_System 0) in
  name <$> threads_ (mgr r.2) !! r.1 = Some "" /\
  getThreadStatus r.1 (mgr r.2)
    = " [" +:+ getType (new_MonitorWorker 1000 None) +:+ "]: "
      +:+ stateStr (getState (new_MonitorWorker 1000 None)).
Proof.
  apply (created_thread_has_no_name (new_MonitorWorker 1000 None) "SystemMonitor" (new_System 0)).
  - reflexivity.
  - intros id [info Hinfo]. vm_compute in Hinfo. discriminate.
  - reflexivity.
Defined.

(** X17.  At the ceiling ([maxThreads_] positive and that many entries
    registered) both [createThread] and [createThreadWithWorker] return
    [SIZE_MAX] for every type, worker and name, and change nothing: no id is
    used up and the factory is not called. *)
Theorem creation_refused_at_ceiling (s : System) :
  (0 < maxThreads_ (mgr s))%N ->
  (maxThreads_ (mgr s) <= getTotalThreadCount (mgr s))%N ->
  (forall ow given, createThreadWithWorker ow given s = (SIZE_MAX, s)) /\
  (forall type given, createThread type given s = (SIZE_MAX, s)).
Proof.
  intros Hpos Hfull.
  assert (Hc : at_ceiling (mgr s) = true) by (by apply at_ceiling_spec).
  split.
  - intros [w|] given; unfold createThreadWithWorker, createThreadWithWorker_via;
      [by rewrite Hc | done].
  - intros type given. unfold createThread, createThread_via. rewrite Hc.
    by destruct (factories_ (mgr s) !! type).
Qed.

Lemma creation_refused_at_ceiling_witness :
  (forall ow given, createThreadWithWorker ow given full_system = (SIZE_MAX, full_system)) /\
  (forall type given, createThread type given full_system = (SIZE_MAX, full_system)).
Proof.
  apply (creation_refused_at_ceiling full_system).
  - reflexivity.
  - vm_compute. discriminate.
Defined.

(** X18.  Two creations in a row on a manager without ceiling return two
    different ids, the second above the first, neither of them [SIZE_MAX];
    both workers are registered afterwards and the registry has grown by
    two. *)
Theorem created_ids_increase (w1 w2 : Worker) (n1 n2 : string) (s : System) :
  (nextId_ (mgr s) + 3 < SIZE_MAX)%N ->
  (forall id, is_Some (threads_ (mgr s) !! id) -> (id < nextId_ (mgr s))%N) ->
  maxThreads_ (mgr s) = 0%N ->
  let r1 := createThreadWithWorker (Some w1) n1 s in
  let r2 := createThreadWithWorker (Some w2) n2 r1.2 in
  (r1.1 < r2.1)%N /\ r2.1 <> SIZE_MAX /\ r1.1 <> SIZE_MAX /\
  worker <$> threads_ (mgr r2.2) !! r1.1 = Some w1 /\
  worker <$> threads_ (mgr r2.2) !! r2.1 = Some w2 /\
  getTotalThreadCount (mgr r2.2) = (getTotalThreadCount (mgr s) + 2)%N.
Proof.
  intros Hroom Hids Hmax. simpl.
  assert (Hc : at_ceiling (mgr s) = false) by (unfold at_ceiling; by rewrite Hmax).
  unfold createThreadWithWorker, createThreadWithWorker_via. rewrite Hc.
  destruct (start_named_effect w1 n1 s ltac:(lia) Hids (getType w1)) as [Heq1 Hnone1].
  rewrite Heq1. cbn [fst snd].
  set (id1 := created_id n1 s) in *.
  set (s1 := mkSystem _ _ _ _) in *.
  assert (Hid1 : (nextId_ (mgr s) <= id1 <= nextId_ (mgr s) + 1)%N).
  { subst id1. unfold created_id. case_decide; lia. }
  assert (Hc1 : at_ceiling (mgr s1) = false) by (unfold at_ceiling; simpl; by rewrite Hmax).
  rewrite Hc1.
  assert (Hids1 : forall id, is_Some (threads_ (mgr s1) !! id) -> (id < nextId_ (mgr s1))%N).
  { intros id. simpl. rewrite lookup_insert_is_Some. intros [<- | [_ H]]; [lia|].
    specialize (Hids id H). lia. }
  destruct (start_named_effect w2 n2 s1 ltac:(simpl; lia) Hids1 (getType w2)) as [Heq2 Hnone2].
  rewrite Heq2. cbn [fst snd].
  set (id2 := created_id n2 s1) in *.
  assert (Hid2 : (id1 + 1 <= id2 <= id1 + 2)%N).
  { subst id2. unfold created_id. simpl. case_decide; lia. }
  rewrite SIZE_MAX_val in *.
  split; [lia|]. split; [lia|]. split; [lia|].
  subst s1. simpl in *.
  split; [rewrite lookup_insert_ne by lia; by rewrite lookup_insert_eq|].
  split; [by rewrite lookup_insert_eq|].
  unfold getTotalThreadCount. simpl.
  rewrite !map_size_insert_None by done. lia.
Qed.

Lemma created_ids_increase_witness :
  let s := new_System 0 in
  let w1 := new_TaskWorker None "a" in
  let w2 := new_LoopWorker 2 None None None in
  let r1 := createThreadWithWorker (Some w1) "" s in
  let r2 := createThreadWithWorker (Some w2) "b" r1.2 in
  (r1.1 < r2.1)%N /\ r2.1 <> SIZE_MAX /\ r1.1 <> SIZE_MAX /\
  worker <$> threads_ (mgr r2.2) !! r1.1 = Some w1 /\
  worker <$> threads_ (mgr r2.2) !! r2.1 = Some w2 /\
  getTotalThreadCount (mgr r2.2) = (getTotalThreadCount (mgr s) + 2)%N.
Proof.
  apply (created_ids_increase (new_TaskWorker None "a") (new_LoopWorker 2 None None None)
           "" "b" (new_System 0)).
  - reflexivity.
  - intros id [info Hinfo]. vm_compute in Hinfo. discriminate.
  - reflexivity.
Defined.

(** X19.  Below the ceiling, [createThread] on a registered type calls the
    factory exactly once, whatever it returns.  When the factory returns
    null the result is [SIZE_MAX] and threads, id counter and running
    threads are unchanged; when it returns a worker, that worker is
    registered under the returned id. *)
Theorem createThread_calls_factory_once (type given : string) (f : IThreadWorkerFactory)
  (s : System) :
  (nextId_ (mgr s) + 1 < SIZE_MAX)%N ->
  (forall id, is_Some (threads_ (mgr s) !! id) -> (id < nextId_ (mgr s))%N) ->
  factories_ (mgr s) !! type = Some f ->
  at_ceiling (mgr s) = false ->
  let r := createThread type given s in
  factories_ (mgr r.2) = <[type := (createWorker f).2]> (factories_ (mgr s)) /\
  made (createWorker f).2 = S (made f) /\
  match (createWorker f).1 with
  | None =>
      r.1 = SIZE_MAX /\ threads_ (mgr r.2) = threads_ (mgr s) /\
      nextId_ (mgr r.2) = nextId_ (mgr s) /\ os_threads r.2 = os_threads s
  | Some w =>
      r.1 = created_id given s /\
      threads_ (mgr r.2)
        = <[r.1 := mkThreadInfo (Some Joinable) w false "" (now s)]> (threads_ (mgr s)) /\
      nextId_ (mgr r.2) = (r.1 + 1)%N /\
      os_threads r.2 = <[r.1 := TFind]> (os_threads s)
  end.
Proof.
  intros Hroom Hids Hf Hc. simpl.
  unfold createThread, createThread_via. rewrite Hf, Hc. simpl.
  destruct (produce f (made f)) as [w|]; last done.
  set (s1 := with_mgr _ s).
  destruct (start_named_effect w given s1 Hroom Hids type) as [Heq _].
  rewrite Heq. done.
Qed.

Lemma createThread_calls_factory_once_witness :
  let s := one_shot_system in
  let r := createThread "once" "" s in
  factories_ (mgr r.2) = <[ "once" := (createWorker one_shot_factory).2]> (factories_ (mgr s)) /\
  made (createWorker one_shot_factory).2 = S (made one_shot_factory) /\
  match (createWorker one_shot_factory).1 with
  | None =>
      r.1 = SIZE_MAX /\ threads_ (mgr r.2) = threads_ (mgr s) /\
      nextId_ (mgr r.2) = nextId_ (mgr s) /\ os_threads r.2 = os_threads s
  | Some w =>
      r.1 = created_id "" s /\
      threads_ (mgr r.2)
        = <[r.1 := mkThreadInfo (Some Joinable) w false "" (now s)]> (threads_ (mgr s)) /\
      nextId_ (mgr r.2) = (r.1 + 1)%N /\
      os_threads r.2 = <[r.1 := TFind]> (os_threads s)
  end.
Proof.
  apply (createThread_calls_factory_once "once" "" one_shot_factory one_shot_system).
  - reflexivity.
  - intros id [info Hinfo]. vm_compute in Hinfo. discriminate.
  - reflexivity.
  - reflexivity.
Defined.

(** The factory of the witness, called twice: a task, then null. *)
Example one_shot_twice :
  let r1 := createThread "once" "" one_shot_system in
  let r2 := createThread "once" "" r1.2 in
  (r1.1, r2.1, getTotalThreadCount (mgr r2.2), nextId_ (mgr r2.2))
  = (2%N, SIZE_MAX, 1%N, 3%N).
Proof. vm_compute. reflexivity. Qed.

(** ** Stopping a monitor through the manager *)

Lemma thread_step_set_entry (threadId : N) (pc pc' : ThreadPc) (info info' : ThreadInfo)
  (s : System) :
  thread_body_step pc info = Some (pc', info') ->
  thread_step threadId (set_entry threadId pc info s) = Some (set_entry threadId pc' info' s).
Proof.
  intros Hstep. unfold thread_step, set_entry. simpl.
  rewrite !lookup_insert_eq, Hstep. unfold with_threads. simpl.
  by rewrite !insert_insert_eq.
Qed.

(** X20.  [stopThread] on a registered [MonitorWorker] that is in the sleep
    of an iteration, with no request outstanding: [onStop] clears
    [enabled_], the thread leaves the loop at its next test, stores
    [FINISHED], clears [running] and exits after five steps, and [join]
    then returns [true].  The worker has made no further iteration and the
    handle is joined. *)
Theorem stopThread_stops_sleeping_monitor (threadId : N) (s : System) (info : ThreadInfo)
  (m : MonitorWorker) :
  caller s = Idle ->
  os_threads s !! threadId = Some (TRun MonSleep) ->
  threads_ (mgr s) !! threadId = Some info ->
  thread info = Some Joinable ->
  derived (worker info) = Monitor m ->
  no_request (base (worker info)) ->
  exists s1 s2,
    exec (CallStopThread threadId :: replicate 5 (ThreadStep threadId)) s = Some s1 /\
    stopThread_join s1 = Some (true, s2) /\
    view threadId s2 = (Some TExited, Some false, Some FINISHED, Idle) /\
    (fun i => (thread i, progress (worker i))) <$> threads_ (mgr s2) !! threadId
      = Some (Some Joined, iterationCount_ m).
Proof.
  intros Hidle Hpc Hinfo Hjoin Hd [Hs Hp].
  destruct info as [h [[st stop pause] d] r nm t0]. simpl in *. subst h d stop pause.
  destruct m as [iv cb en c].
  set (w0 := mkWorker (mkIThreadWorker st false false) (Monitor (mkMonitor iv cb false c))).
  set (wF := mkWorker (mkIThreadWorker FINISHED false false) (Monitor (mkMonitor iv cb false c))).
  set (sj := with_caller (InJoin threadId) s).
  assert (Hreq : (stopThread_request threadId s).2
                 = set_entry threadId (TRun MonSleep)
                     (mkThreadInfo (Some Joinable) w0 r nm t0) sj).
  { unfold stopThread_request, set_entry. rewrite Hinfo. simpl.
    by rewrite (insert_id (os_threads s)). }
  eexists _, _. split; [|split; [|split]].
  - simpl. rewrite Hidle. simpl. rewrite Hreq.
    rewrite (thread_step_set_entry _ _ (TRun MonTest) _
               (mkThreadInfo (Some Joinable) w0 r nm t0)) by done.
    rewrite (thread_step_set_entry _ _ (TRun Exit) _
               (mkThreadInfo (Some Joinable) w0 r nm t0)) by done.
    rewrite (thread_step_set_entry _ _ TClearRunning _
               (mkThreadInfo (Some Joinable) wF r nm t0)) by done.
    rewrite (thread_step_set_entry _ _ TNotify _
               (mkThreadInfo (Some Joinable) wF false nm t0)) by done.
    rewrite (thread_step_set_entry _ _ TExited _
               (mkThreadInfo (Some Joinable) wF false nm t0)) by done.
    reflexivity.
  - unfold stopThread_join, set_entry. simpl. by rewrite lookup_insert_eq.
  - unfold view, worker_state. simpl.
    rewrite lookup_insert_eq, lookup_alter, decide_True by done.
    by rewrite lookup_insert_eq.
  - simpl. rewrite lookup_alter, decide_True by done. by rewrite lookup_insert_eq.
Qed.

Lemma stopThread_stops_sleeping_monitor_witness :
  exists s1 s2,
    exec (CallStopThread 1 :: replicate 5 (ThreadStep 1)) sleeping_monitor_system = Some s1 /\
    stopThread_join s1 = Some (true, s2) /\
    view 1 s2 = (Some TExited, Some false, Some FINISHED, Idle) /\
    (fun i => (thread i, progress (worker i))) <$> threads_ (mgr s2) !! 1%N
      = Some (Some Joined, iterationCount_ (mkMonitor 1000 None true 7)).
Proof.
  apply (stopThread_stops_sleeping_monitor 1 sleeping_monitor_system sleeping_monitor_info
           (mkMonitor 1000 None true 7)); try reflexivity.
  split; reflexivity.
Defined.

(** ** A task from creation to removal *)

Lemma set_entry_same (threadId : N) (pc : ThreadPc) (info : ThreadInfo) (s : System) :
  os_threads s !! threadId = Some pc ->
  threads_ (mgr s) !! threadId = Some info ->
  set_entry threadId pc info s = s.
Proof.
  intros Hpc Hinfo. unfold set_entry. rewrite !insert_id by done.
  by destruct s as [[] ? ? ?].
Qed.

(** X21.  The thread of a registered [TaskWorker] that has not started,
    with a task that is empty, returns or throws a [std::exception], runs
    to its exit in eight steps: the worker is then [FINISHED] and [running]
    is clear, so the entry is one that cleanup erases, and the join of
    cleanup does not block. *)
Theorem task_thread_ends_removable (threadId : N) (s : System) (info : ThreadInfo)
  (t : TaskWorker) :
  os_threads s !! threadId = Some TFind ->
  threads_ (mgr s) !! threadId = Some info ->
  derived (worker info) = Task t ->
  exists s' info',
    exec (replicate 8 (ThreadStep threadId)) s = Some s' /\
    os_threads s' !! threadId = Some TExited /\
    threads_ (mgr s') !! threadId = Some info' /\
    getState (worker info') = FINISHED /\
    running info' = false /\
    removable info' = true /\
    join_ready s' threadId info' = true /\
    exec [ThreadStep threadId] s' = None.
Proof.
  intros Hpc Hinfo Hd.
  rewrite <- (set_entry_same threadId TFind info s Hpc Hinfo).
  destruct info as [h [[st stop pause] d] r nm t0]. simpl in Hd. subst d.
  destruct t as [task desc cmp].
  assert (Hbody : exists cmp',
            thread_body_step (TRun TaskBody)
              (mkThreadInfo h
                 (mkWorker (mkIThreadWorker RUNNING stop pause) (Task (mkTask task desc cmp)))
                 true nm t0)
            = Some (TRun Exit,
                    mkThreadInfo h
                      (mkWorker (mkIThreadWorker RUNNING stop pause)
                         (Task (mkTask task desc cmp')))
                      true nm t0)).
  { unfold thread_body_step, run_step. simpl.
    destruct task as [f|]; [destruct (f 0)|]; eauto. }
  destruct Hbody as [cmp' Hbody].
  set (wF := mkWorker (mkIThreadWorker FINISHED stop pause) (Task (mkTask task desc cmp'))).
  assert (Hsteps : exec (replicate 8 (ThreadStep threadId))
                     (set_entry threadId TFind
                        (mkThreadInfo h
                           (mkWorker (mkIThreadWorker st stop pause)
                              (Task (mkTask task desc cmp))) r nm t0) s)
                   = Some (set_entry threadId TExited (mkThreadInfo h wF false nm t0) s)).
  { cbn [replicate exec sys_step].
    do 4 (erewrite thread_step_set_entry by reflexivity).
    erewrite thread_step_set_entry by exact Hbody.
    do 3 (erewrite thread_step_set_entry by reflexivity).
    reflexivity. }
  exists (set_entry threadId TExited (mkThreadInfo h wF false nm t0) s),
         (mkThreadInfo h wF false nm t0).
  split; [exact Hsteps|].
  split; [simpl; by rewrite lookup_insert_eq|].
  split; [simpl; by rewrite lookup_insert_eq|].
  split; [done|]. split; [done|]. split; [done|].
  split.
  - unfold join_ready. simpl. destruct h as [[]|]; try done.
    rewrite lookup_insert_eq. by rewrite bool_decide_eq_true_2.
  - simpl. unfold thread_step, set_entry. simpl. by rewrite !lookup_insert_eq.
Qed.

Lemma task_thread_ends_removable_witness :
  exists s' info',
    exec (replicate 8 (ThreadStep 1)) fresh_task_system = Some s' /\
    os_threads s' !! 1%N = Some TExited /\
    threads_ (mgr s') !! 1%N = Some info' /\
    getState (worker info') = FINISHED /\
    running info' = false /\
    removable info' = true /\
    join_ready s' 1 info' = true /\
    exec [ThreadStep 1] s' = None.
Proof.
  apply (task_thread_ends_removable 1 fresh_task_system
           (mkThreadInfo (Some Joinable)
              (new_TaskWorker (Some (fun _ => Throws "bad")) "job") false "" 0)
           (mkTask (Some (fun _ => Throws "bad")) "job" false)); reflexivity.
Defined.

(** ** Callbacks outside a try block *)

(** X22.  An exception of the start callback of a [LoopWorker] leaves
    [run]: after two steps [run] has ended with that exception, the worker
    is [RUNNING], not [FINISHED], and no iteration has run. *)
Theorem LoopWorker_start_fault_escapes (b : IThreadWorker) (l : LoopWorker) (e : string) :
  invoke (startCallback_ l) 0 = Throws e ->
  run 2 (mkWorker b (Loop l))
  = Some (Escaped e (mkWorker (mkIThreadWorker RUNNING (shouldStop b) (shouldPause b)) (Loop l))).
Proof.
  destruct b as [st stop pause], l as [n cb sc ec c].
  cbn [startCallback_ shouldStop shouldPause]. intros Hsc.
  unfold run. rewrite run_from_S. unfold run_step at 1. cbn -[run_from invoke].
  rewrite run_from_S. unfold run_step at 1. cbn -[run_from invoke]. by rewrite Hsc.
Qed.

Lemma LoopWorker_start_fault_escapes_witness :
  run 2 (mkWorker IThreadWorker_init
           (Loop (mkLoop 5 None (Some (fun _ => Throws "no")) None 0)))
  = Some (Escaped "no"
            (mkWorker (mkIThreadWorker RUNNING false false)
               (Loop (mkLoop 5 None (Some (fun _ => Throws "no")) None 0)))).
Proof.
  apply (LoopWorker_start_fault_escapes IThreadWorker_init
           (mkLoop 5 None (Some (fun _ => Throws "no")) None 0) "no").
  reflexivity.
Defined.

(** ** A stop flag that is set *)

(** X23.  A worker whose [shouldStop] flag is set and that is at a
    continuation check leaves its loop there: [run] returns [FINISHED]
    within three steps without another iteration (for a [LoopWorker], when
    its end callback returns). *)
Theorem stop_flag_ends_run (pc : RunPc) (w : Worker) :
  shouldStop (base w) = true ->
  polling_point pc w = true ->
  (forall l, derived w = Loop l -> invoke (endCallback_ l) 0 = Returns) ->
  run_from 3 pc w = Some (Normal (with_base (setState FINISHED) w)).
Proof.
  destruct w as [[st stop pause] d]. cbn [base shouldStop derived]. intros -> Hpp Hend.
  unfold polling_point in Hpp. simpl in Hpp.
  destruct d as [m|t|t|l]; destruct pc; try discriminate.
  - by destruct pause.
  - by destruct pause.
  - by destruct pause.
  - pose proof (Hend l eq_refl) as He.
    destruct l as [n cb sc ec c]. simpl in Hpp, He.
    rewrite run_from_S. unfold run_step at 1. cbn -[run_from invoke]. rewrite Hpp.
    replace (shouldContinue_poll (mkIThreadWorker st true pause)) with (Answer false)
      by (by destruct pause).
    rewrite run_from_S. unfold run_step at 1. cbn -[run_from invoke]. by rewrite He.
Qed.

Lemma stop_flag_ends_run_witness :
  run_from 3 (LoopTest 3)
    (mkWorker (mkIThreadWorker RUNNING true true) (Loop (mkLoop 5 None None None 2)))
  = Some (Normal (with_base (setState FINISHED)
                    (mkWorker (mkIThreadWorker RUNNING true true)
                       (Loop (mkLoop 5 None None None 2))))).
Proof.
  apply (stop_flag_ends_run (LoopTest 3)
           (mkWorker (mkIThreadWorker RUNNING true true) (Loop (mkLoop 5 None None None 2)))).
  - reflexivity.
  - reflexivity.
  - intros l [= <-]. reflexivity.
Defined.

(** ** The [PAUSED] state *)

Lemma entry_exec_inv (evs : list WorkerEvent) (c : ThreadPc * ThreadInfo) :
  entry_inv c -> entry_inv (entry_exec evs c).
Proof.
  revert c. induction evs as [|ev evs IH]; intros c Hinv; first done.
  unfold entry_exec in *. simpl. apply IH. by apply entry_step_inv.
Qed.

(** X24.  A worker that is [STOPPED] when its thread looks it up is never
    [PAUSED] afterwards, whatever happens to it: [isPaused] is false at
    every moment, so a [resumeThread] on it returns [false], and it is
    active exactly when it is [RUNNING]. *)
Theorem isPaused_never_holds (info : ThreadInfo) (evs : list WorkerEvent) :
  getState (worker info) = STOPPED ->
  let c := entry_exec evs (TFind, info) in
  isPaused (worker c.2) = false /\
  entry_step ControlResume c = c /\
  (isRunning (worker c.2) || isPaused (worker c.2) = isRunning (worker c.2)).
Proof.
  intros Hst c.
  assert (Hnp : getState (worker c.2) <> PAUSED).
  { apply entry_inv_not_paused. subst c. by apply entry_exec_inv. }
  assert (Hp : isPaused (worker c.2) = false).
  { unfold isPaused. by rewrite bool_decide_eq_false_2. }
  split; [done|]. split.
  - simpl. by rewrite Hp.
  - rewrite Hp. by rewrite orb_false_r.
Qed.

Lemma isPaused_never_holds_witness :
  let c := entry_exec [HostStep; HostStep; HostStep; HostStep; ControlPause; HostStep]
             (TFind, mkThreadInfo (Some Joinable) (new_MonitorWorker 1000 None) false "" 0) in
  isPaused (worker c.2) = false /\
  entry_step ControlResume c = c /\
  (isRunning (worker c.2) || isPaused (worker c.2) = isRunning (worker c.2)).
Proof.
  apply (isPaused_never_holds
           (mkThreadInfo (Some Joinable) (new_MonitorWorker 1000 None) false "" 0)
           [HostStep; HostStep; HostStep; HostStep; ControlPause; HostStep]).
  reflexivity.
Defined.

(** ** Ids along a schedule *)

(** X25.  From a new manager, after any schedule of fewer than [2^62]
    steps, every registered id is below the id counter and the counter is
    below [SIZE_MAX - 1]: no id in use is handed out again and none is the
    failure value. *)
Theorem ids_stay_below_counter (sched : list Label) (maxThreads : N) (s : System) :
  (N.of_nat (length sched) < 2 ^ 62)%N ->
  exec sched (new_System maxThreads) = Some s ->
  (forall id, is_Some (threads_ (mgr s) !! id) ->
     (id < nextId_ (mgr s))%N /\ id <> SIZE_MAX) /\
  (nextId_ (mgr s) + 1 < SIZE_MAX)%N.
Proof.
  intros Hlen Hexec.
  destruct (reachable_ids sched maxThreads s Hlen Hexec) as [Hn Hids].
  split; last done.
  intros id Hid. specialize (Hids id Hid). rewrite SIZE_MAX_val in *. lia.
Qed.

Lemma ids_stay_below_counter_witness :
  exists s,
    exec busy_schedule (new_System 0) = Some s /\
    (forall id, is_Some (threads_ (mgr s) !! id) ->
       (id < nextId_ (mgr s))%N /\ id <> SIZE_MAX) /\
    (nextId_ (mgr s) + 1 < SIZE_MAX)%N.
Proof.
  destruct (exec busy_schedule (new_System 0)) as [s|] eqn:Hexec;
    [|vm_compute in Hexec; discriminate].
  exists s. split; [done|].
  apply (ids_stay_below_counter busy_schedule 0 s).
  - vm_compute. reflexivity.
  - exact Hexec.
Defined.

